(** * AI test generator (app.py): prompt rendering, refinement and
      fenced-code extraction

    A shallow embedding of [ai-test-generator/app.py].  Python values coming
    from a parsed JSON/YAML document are modelled by the tree type [pyval];
    a Python [dict] is an association list in insertion order; a Python
    [str] is a Rocq [string] read one character per code point (code points
    above 255 and floating-point numbers are outside the model).  Exceptions
    are values of type [exn]; the two route handlers run in a small
    state-and-exception monad over a [world] made of the file system and the
    log of prompts sent to the generation client.  Paths follow the POSIX
    rules of [os.path.join] and are compared as strings; the collaborators
    outside app.py ([secure_filename], [SpecParser], [GraniteClient]) are
    parameters of the handlers. *)

From Stdlib Require Import String Ascii List ZArith Lia Bool Arith.
From Stdlib Require Import DecimalString.
Import ListNotations.

Set Warnings "-register-all".

Local Open Scope list_scope.
Local Open Scope string_scope.

(* ================================================================= *)
(** ** Python string primitives *)

Module PyStr.

(** The line feed, and a helper to write multi-line literals line by line:
    [lines [a; b; c]] is the text [a\nb\nc]. *)
Definition nl : string := String (ascii_of_nat 10) "".

Fixpoint lines (ls : list string) : string :=
  match ls with
  | [] => ""
  | [l] => l
  | l :: rest => l ++ nl ++ lines rest
  end.

(** [sep.join(items)] on a list of strings. *)
Fixpoint join (sep : string) (items : list string) : string :=
  match items with
  | [] => ""
  | [x] => x
  | x :: rest => x ++ sep ++ join sep rest
  end.

(** [str.isspace] on one character (code points below 256). *)
Definition isspace (c : ascii) : bool :=
  let n := nat_of_ascii c in
  (((9 <=? n) && (n <=? 13)) || ((28 <=? n) && (n <=? 32))
   || (n =? 133) || (n =? 160))%nat.

Fixpoint lstrip (s : string) : string :=
  match s with
  | "" => ""
  | String c s' => if isspace c then lstrip s' else s
  end.

Fixpoint rstrip (s : string) : string :=
  match s with
  | "" => ""
  | String c s' =>
      match rstrip s' with
      | "" => if isspace c then "" else String c ""
      | r => String c r
      end
  end.

(** [s.strip()] *)
Definition strip (s : string) : string := rstrip (lstrip s).

(** [s.find(sub, start)]; [None] stands for Python's [-1].  The patterns
    searched for in app.py are non-empty literals. *)
Definition find (s sub : string) (start : nat) : option nat :=
  index start sub s.

(** [sub in s] *)
Definition contains (sub s : string) : bool :=
  match find s sub 0 with Some _ => true | None => false end.

(** [s[a:b]] for [0 <= a <= b]. *)
Definition slice (s : string) (a b : nat) : string := substring a (b - a) s.

(** [s.split(sep)] for a non-empty [sep]: scan left to right, cutting at
    each occurrence and resuming after it.  [skip] counts the characters of
    an occurrence still to be passed over; [cur] is the current segment. *)
Fixpoint split_from (sep : string) (skip : nat) (cur : string) (s : string)
  : list string :=
  match s with
  | "" => [cur]
  | String c s' =>
      match skip with
      | S k => split_from sep k cur s'
      | O =>
          if prefix sep s
          then cur :: split_from sep (String.length sep - 1) "" s'
          else split_from sep 0 (cur ++ String c "") s'
      end
  end.

Definition split (s sep : string) : list string := split_from sep 0 "" s.

(** [s.replace(old, new)] for a non-empty [old]. *)
Fixpoint replace_from (old new : string) (skip : nat) (s : string) : string :=
  match s with
  | "" => ""
  | String c s' =>
      match skip with
      | S k => replace_from old new k s'
      | O =>
          if prefix old s
          then new ++ replace_from old new (String.length old - 1) s'
          else String c (replace_from old new 0 s')
      end
  end.

Definition replace (s old new : string) : string := replace_from old new 0 s.

(** [s.lower()] on code points below 256: A-Z and the Latin-1 capitals
    0xC0-0xDE (the multiplication sign 0xD7 apart) move up by 32. *)
Definition lower_char (c : ascii) : ascii :=
  let n := nat_of_ascii c in
  if (((65 <=? n) && (n <=? 90))
      || ((192 <=? n) && (n <=? 222) && negb (n =? 215)))%nat
  then ascii_of_nat (n + 32) else c.

Fixpoint lower (s : string) : string :=
  match s with
  | "" => ""
  | String c s' => String (lower_char c) (lower s')
  end.

(** [s.rsplit('.', 1)[1]]: the text after the last dot; [None] when there
    is no dot (Python raises IndexError). *)
Fixpoint after_last_dot (s : string) : option string :=
  match s with
  | "" => None
  | String c s' =>
      match after_last_dot s' with
      | Some e => Some e
      | None => if Ascii.eqb c "." then Some s' else None
      end
  end.

(** Text-mode reading translates the line endings [\r\n] and [\r] to
    [\n] (universal newlines); [after_cr] tells that the previous character
    was a carriage return, already translated. *)
Fixpoint universal_newlines_from (after_cr : bool) (s : string) : string :=
  match s with
  | "" => ""
  | String c s' =>
      if Ascii.eqb c (ascii_of_nat 13)
      then nl ++ universal_newlines_from true s'
      else if Ascii.eqb c (ascii_of_nat 10) && after_cr
      then universal_newlines_from false s'
      else String c (universal_newlines_from false s')
  end.

Definition universal_newlines (s : string) : string :=
  universal_newlines_from false s.

End PyStr.

Import PyStr.

(* ================================================================= *)
(** ** Python values, exceptions and the built-in operations used *)

(** A parsed JSON/YAML document: the values [api_info] and the request body
    are made of. *)
Inductive pyval : Type :=
| VNone
| VBool (b : bool)
| VInt (n : Z)
| VStr (s : string)
| VList (l : list pyval)
| VDict (d : list (string * pyval)).

(** The exceptions that reach the handlers' [except Exception] clause. *)
Inductive exn : Type :=
| KeyError (key : string)
| TypeError
| AttributeError
| IndexError
| FileNotFoundError (path : string)
| ExternalError (msg : string).

Inductive result (A : Type) : Type :=
| Ok (a : A)
| Raise (e : exn).
Arguments Ok {A} a.
Arguments Raise {A} e.

Definition rbind {A B : Type} (r : result A) (k : A -> result B) : result B :=
  match r with
  | Ok a => k a
  | Raise e => Raise e
  end.

Declare Scope result_scope.
Delimit Scope result_scope with result.
Notation "x <- r ;; k" := (rbind r (fun x => k))
  (at level 61, r at next level, right associativity) : result_scope.
Local Open Scope result_scope.

Fixpoint mapM {A B : Type} (f : A -> result B) (l : list A) : result (list B) :=
  match l with
  | [] => Ok []
  | x :: l' => y <- f x ;; ys <- mapM f l' ;; Ok (y :: ys)
  end.

Module Py.

(** [d[k]] on an association list: the binding of [k], if any. *)
Fixpoint lookup {V : Type} (k : string) (d : list (string * V)) : option V :=
  match d with
  | [] => None
  | (k', v) :: d' => if String.eqb k k' then Some v else lookup k d'
  end.

(** [bool(v)] *)
Definition truthy (v : pyval) : bool :=
  match v with
  | VNone => false
  | VBool b => b
  | VInt n => negb (Z.eqb n 0)
  | VStr s => negb (String.eqb s "")
  | VList l => match l with [] => false | _ => true end
  | VDict d => match d with [] => false | _ => true end
  end.

(** [bool(s)] for a str: the empty string is false. *)
Definition nonempty (s : string) : bool := negb (String.eqb s "").

(** [len(v)] *)
Definition len (v : pyval) : result nat :=
  match v with
  | VStr s => Ok (String.length s)
  | VList l => Ok (List.length l)
  | VDict d => Ok (List.length d)
  | _ => Raise TypeError
  end.

(** [v[k]] with a string key: KeyError on a dict without [k], TypeError on
    anything that is not a dict. *)
Definition getitem (v : pyval) (k : string) : result pyval :=
  match v with
  | VDict d =>
      match lookup k d with
      | Some x => Ok x
      | None => Raise (KeyError k)
      end
  | _ => Raise TypeError
  end.

(** [v.get(k, default)]: only a dict has the method. *)
Definition get (v : pyval) (k : string) (default : pyval) : result pyval :=
  match v with
  | VDict d =>
      match lookup k d with
      | Some x => Ok x
      | None => Ok default
      end
  | _ => Raise AttributeError
  end.

Fixpoint chars (s : string) : list pyval :=
  match s with
  | "" => []
  | String c s' => VStr (String c "") :: chars s'
  end.

(** [for x in v]: a list yields its items, a dict its keys, a str its
    characters; the other values are not iterable. *)
Definition iterate (v : pyval) : result (list pyval) :=
  match v with
  | VList l => Ok l
  | VDict d => Ok (map (fun kv => VStr (fst kv)) d)
  | VStr s => Ok (chars s)
  | _ => Raise TypeError
  end.

(** [v.keys()] and [v.items()] *)
Definition keys (v : pyval) : result (list string) :=
  match v with
  | VDict d => Ok (map fst d)
  | _ => Raise AttributeError
  end.

Definition items (v : pyval) : result (list (string * pyval)) :=
  match v with
  | VDict d => Ok d
  | _ => Raise AttributeError
  end.

(** [sep.join(vs)]: every item has to be a str. *)
Fixpoint as_strings (vs : list pyval) : result (list string) :=
  match vs with
  | [] => Ok []
  | VStr s :: vs' => ss <- as_strings vs' ;; Ok (s :: ss)
  | _ :: _ => Raise TypeError
  end.

Definition join_values (sep : string) (vs : list pyval) : result string :=
  ss <- as_strings vs ;; Ok (join sep ss).

(** [v.replace(old, new)] and [v.strip()]: str methods. *)
Definition str_replace (v : pyval) (old new : string) : result string :=
  match v with
  | VStr s => Ok (replace s old new)
  | _ => Raise AttributeError
  end.

Definition str_strip (v : pyval) : result string :=
  match v with
  | VStr s => Ok (strip s)
  | _ => Raise AttributeError
  end.

(** *** [str(v)] and [repr(v)], as an f-string formats a value *)

Definition backslash : ascii := ascii_of_nat 92.
Definition squote : ascii := ascii_of_nat 39.
Definition dquote : ascii := ascii_of_nat 34.

Definition hex_digit (n : nat) : ascii :=
  if (n <? 10)%nat then ascii_of_nat (48 + n) else ascii_of_nat (87 + n).

Fixpoint has_char (c : ascii) (s : string) : bool :=
  match s with
  | "" => false
  | String c' s' => Ascii.eqb c c' || has_char c s'
  end.

Definition repr_char (quote c : ascii) : string :=
  let n := nat_of_ascii c in
  if Ascii.eqb c quote || Ascii.eqb c backslash
  then String backslash (String c "")
  else if (n =? 9)%nat then String backslash "t"
  else if (n =? 10)%nat then String backslash "n"
  else if (n =? 13)%nat then String backslash "r"
  else if ((n <? 32) || (n =? 127) || ((128 <=? n) && (n <=? 160))
           || (n =? 173))%nat
  then String backslash
         (String "x" (String (hex_digit (n / 16)) (String (hex_digit (n mod 16)) "")))
  else String c "".

Fixpoint repr_chars (quote : ascii) (s : string) : string :=
  match s with
  | "" => ""
  | String c s' => repr_char quote c ++ repr_chars quote s'
  end.

Definition repr_str (s : string) : string :=
  let quote := if has_char squote s && negb (has_char dquote s)
               then dquote else squote in
  String quote (repr_chars quote s ++ String quote "").

Definition str_int (n : Z) : string := NilZero.string_of_int (Z.to_int n).

Fixpoint repr (v : pyval) : string :=
  match v with
  | VNone => "None"
  | VBool true => "True"
  | VBool false => "False"
  | VInt n => str_int n
  | VStr s => repr_str s
  | VList l => "[" ++ join ", " (map repr l) ++ "]"
  | VDict d =>
      "{" ++ join ", " (map (fun kv => repr_str (fst kv) ++ ": " ++ repr (snd kv)) d)
          ++ "}"
  end.

Definition str (v : pyval) : string :=
  match v with
  | VStr s => s
  | _ => repr v
  end.

End Py.
Import Py.

(* ================================================================= *)
(** ** The prompt renderer: [create_test_generation_prompt] *)

(** One pass of the loop over [api_info['endpoints']]: the text appended to
    [endpoints_summary] for [endpoint]. *)
Definition endpoint_summary (endpoint : pyval) : result string :=
  ps <- get endpoint "parameters" (VList []) ;;
  ps <- iterate ps ;;
  names <- mapM (fun p => get p "name" (VStr "")) ps ;;
  params <- join_values ", " names ;;
  rs <- get endpoint "responses" (VDict []) ;;
  ks <- keys rs ;;
  let responses := join ", " ks in
  method <- getitem endpoint "method" ;;
  path <- getitem endpoint "path" ;;
  summary <- get endpoint "summary" (VStr "N/A") ;;
  Ok (nl ++ "- " ++ str method ++ " " ++ str path ++ nl
      ++ "  Summary: " ++ str summary ++ nl
      ++ "  Parameters: " ++ (if nonempty params then params else "None") ++ nl
      ++ "  Responses: " ++ (if nonempty responses then responses else "N/A")).

Fixpoint endpoints_loop (endpoints : list pyval) (endpoints_summary : string)
  : result string :=
  match endpoints with
  | [] => Ok endpoints_summary
  | endpoint :: rest =>
      line <- endpoint_summary endpoint ;;
      endpoints_loop rest (endpoints_summary ++ line)
  end.

(** One pass of the loop over [api_info.get('schemas', {}).items()]. *)
Definition property_entry (kv : string * pyval) : result string :=
  ty <- get (snd kv) "type" (VStr "unknown") ;;
  Ok (fst kv ++ ": " ++ str ty).

Definition schema_summary (entry : string * pyval) : result string :=
  properties <- get (snd entry) "properties" (VDict []) ;;
  props <- items properties ;;
  prop_list <- mapM property_entry props ;;
  Ok ("- " ++ fst entry ++ ": " ++ join ", " prop_list ++ nl).

Fixpoint schemas_loop (schemas : list (string * pyval)) (schemas_summary : string)
  : result string :=
  match schemas with
  | [] => Ok schemas_summary
  | entry :: rest =>
      line <- schema_summary entry ;;
      schemas_loop rest (schemas_summary ++ line)
  end.

(** The three parts of the template: everything up to the endpoints, the
    data-models block, and the fixed requirements with the class scaffold. *)
Definition prompt_head (title version description base_url endpoints_summary : string)
  : string :=
  lines
    [ "You are an expert QA engineer specializing in API testing. Generate comprehensive JUnit 5 test cases for this REST API.";
      "";
      "API Information:";
      "- Title: " ++ title;
      "- Version: " ++ version;
      "- Description: " ++ description;
      "- Base URL: " ++ base_url;
      "";
      "Endpoints:" ++ endpoints_summary ].

Definition data_models_block (schemas_summary : string) : string :=
  if nonempty schemas_summary then schemas_summary else "No schemas defined".

Definition prompt_tail (class_name : string) : string :=
  lines
    [ "Requirements:";
      "1. Generate complete JUnit 5 test classes with proper annotations";
      "2. Include positive test cases for valid inputs";
      "3. Include negative test cases for invalid data and error conditions";
      "4. Add boundary value testing for numeric fields";
      "5. Test edge cases (empty strings, null values, special characters)";
      "6. Generate realistic test data matching API schemas";
      "7. Use proper assertions for status codes, headers, and response body";
      "8. Use RestTemplate or TestRestTemplate for API calls";
      "9. Include setup and teardown methods";
      "10. Follow Spring Boot testing best practices";
      "";
      "Generate complete, runnable Java test classes:";
      "";
      "package com.example.api.test;";
      "";
      "import org.junit.jupiter.api.Test;";
      "import org.junit.jupiter.api.BeforeEach;";
      "import org.springframework.boot.test.context.SpringBootTest;";
      "import org.springframework.test.web.reactive.server.WebTestClient;";
      "import static org.junit.jupiter.api.Assertions.*;";
      "";
      "@SpringBootTest(webEnvironment = SpringBootTest.WebEnvironment.RANDOM_PORT)";
      "public class " ++ class_name ++ "ApiTest {";
      "";
      "Generate the complete test implementation now:" ].

Arguments prompt_head : simpl never.
Arguments prompt_tail : simpl never.

Definition create_test_generation_prompt (api_info : pyval) : result string :=
  endpoints <- getitem api_info "endpoints" ;;
  endpoints <- iterate endpoints ;;
  endpoints_summary <- endpoints_loop endpoints "" ;;
  schemas <- get api_info "schemas" (VDict []) ;;
  schemas <- items schemas ;;
  schemas_summary <- schemas_loop schemas "" ;;
  title <- getitem api_info "title" ;;
  version <- getitem api_info "version" ;;
  description <- getitem api_info "description" ;;
  base_url <- getitem api_info "base_url" ;;
  class_name <- str_replace title " " "" ;;
  Ok (prompt_head (str title) (str version) (str description) (str base_url)
        endpoints_summary
      ++ nl ++ nl ++ "Data Models:" ++ nl ++ data_models_block schemas_summary
      ++ nl ++ nl ++ prompt_tail class_name).

(* ================================================================= *)
(** ** The world of the handlers: files and the generation client *)

(** The file system maps a path, as [os.path.join] builds it, to the text
    stored there; paths are compared as strings.  It stands for the two
    folders of the application, which exist (lines 17-18) and hold regular
    files only, and it is the file system of the program for the paths
    [folder/name] with a plain [name] ([Os.plain_name]): for other paths
    (a name with a separator, [.], [..], an absolute name) the program goes
    by directories and aliases the model does not have, and a property that
    rests on a file being absent or on a write going through is stated for
    plain names.  Storage itself is taken to work (no full disk, no
    permission error): what is said of a request that fails is said by the
    cause of the failure, which lies before the file is opened.
    [sent] logs the prompts passed to [granite_client.generate_test_cases],
    oldest first. *)
Record world : Type := mkWorld {
  fs : list (string * string);
  sent : list string
}.

Definition UPLOAD_FOLDER : string := "uploads".
Definition GENERATED_TESTS_FOLDER : string := "generated_tests".
Definition ALLOWED_EXTENSIONS : list string := ["json"; "yaml"; "yml"].

Module Os.

Definition ends_with_slash (a : string) : bool :=
  match String.get (String.length a - 1) a with
  | Some c => Ascii.eqb c "/"
  | None => false
  end.

(** [os.path.join(a, p)] (POSIX) *)
Definition path_join (a p : string) : string :=
  if prefix "/" p then p
  else if String.eqb a "" || ends_with_slash a then a ++ p
  else a ++ "/" ++ p.

(** [os.path.exists(path)], for a path [folder/name] with a plain name. *)
Definition exists_ (path : string) (files : list (string * string)) : bool :=
  match lookup path files with Some _ => true | None => false end.

(** [open(path, 'r').read()], for a path [folder/name] with a plain name. *)
Definition read_text (path : string) (files : list (string * string))
  : result string :=
  match lookup path files with
  | Some text => Ok (universal_newlines text)
  | None => Raise (FileNotFoundError path)
  end.

(** [open(path, 'w').write(text)], for a path [folder/name] with a plain
    name: replaces the text of an existing file, creates the file otherwise. *)
Fixpoint write_text (path text : string) (files : list (string * string))
  : list (string * string) :=
  match files with
  | [] => [(path, text)]
  | (p, t) :: rest =>
      if String.eqb path p then (p, text) :: rest
      else (p, t) :: write_text path text rest
  end.

(** [os.remove(path)] *)
Fixpoint remove (path : string) (files : list (string * string))
  : result (list (string * string)) :=
  match files with
  | [] => Raise (FileNotFoundError path)
  | (p, t) :: rest =>
      if String.eqb path p then Ok rest
      else rest' <- remove path rest ;; Ok ((p, t) :: rest')
  end.

(** The name of [path] relative to the directory [dir], when [path] is a
    file directly inside it. *)
Definition entry_of (dir path : string) : option string :=
  let d := dir ++ "/" in
  if prefix d path then
    let name := substring (String.length d) (String.length path - String.length d) path in
    if nonempty name && negb (contains "/" name) then Some name else None
  else None.

(** [os.listdir(dir)], in the order the file system holds the entries. *)
Fixpoint listdir (dir : string) (files : list (string * string)) : list string :=
  match files with
  | [] => []
  | (p, _) :: rest =>
      match entry_of dir p with
      | Some name => name :: listdir dir rest
      | None => listdir dir rest
      end
  end.

(** The bytes of [name] in UTF-8 (code points below 256). *)
Fixpoint utf8_length (name : string) : nat :=
  match name with
  | "" => 0
  | String c rest => (if (nat_of_ascii c <? 128)%nat then 1 else 2) + utf8_length rest
  end.

(** A plain file name, one that names an entry of the folder it is joined
    to and nothing else: not empty, without path separator or NUL, not [.]
    or [..], and within the 255 bytes of a POSIX file name. *)
Definition plain_name (name : string) : bool :=
  nonempty name
  && negb (has_char "/" name)
  && negb (has_char (ascii_of_nat 0) name)
  && negb (String.eqb name ".")
  && negb (String.eqb name "..")
  && (utf8_length name <=? 255)%nat.

End Os.

(** What a handler answers: [jsonify(...)] with its status code. *)
Inductive response : Type :=
| ErrorResponse (status : Z) (error : string)
    (** [jsonify({'error': error}), status] *)
| FailureResponse (error_prefix : string) (e : exn)
    (** the [except Exception as e] clause: status 500, the error text is
        [error_prefix] followed by [str(e)], with the traceback *)
| GenerateSuccess (test_cases filename : string) (api_title : pyval)
    (endpoints_count : nat)
| RegenerateSuccess (test_cases filename message improvements_applied
                     api_title : string).

(** A handler body either goes on with a value, leaves through [return], or
    raises; the world it has reached is kept in all three cases. *)
Inductive outcome (A : Type) : Type :=
| Val (a : A)
| Return (r : response)
| Raised (e : exn).
Arguments Val {A} a.
Arguments Return {A} r.
Arguments Raised {A} e.

Definition handler (A : Type) : Type := world -> outcome A * world.

Definition hret {A : Type} (a : A) : handler A := fun w => (Val a, w).

Definition hbind {A B : Type} (m : handler A) (k : A -> handler B) : handler B :=
  fun w =>
    match m w with
    | (Val a, w') => k a w'
    | (Return r, w') => (Return r, w')
    | (Raised e, w') => (Raised e, w')
    end.

Definition return_ {A : Type} (r : response) : handler A := fun w => (Return r, w).

Definition lift {A : Type} (r : result A) : handler A :=
  fun w => match r with Ok a => (Val a, w) | Raise e => (Raised e, w) end.

Definition get_fs : handler (list (string * string)) := fun w => (Val (fs w), w).

Definition set_fs (files : list (string * string)) : handler unit :=
  fun w => (Val tt, mkWorld files (sent w)).

Definition log_prompt (prompt : string) : handler unit :=
  fun w => (Val tt, mkWorld (fs w) (sent w ++ [prompt])%list).

Notation "x <-- m ;; k" := (hbind m (fun x => k))
  (at level 61, m at next level, right associativity).
Notation "m ;;; k" := (hbind m (fun _ => k))
  (at level 61, right associativity).

(** [try: body except Exception as e: return jsonify(error_prefix + str(e)), 500] *)
Definition try_except (error_prefix : string) (body : handler response)
  : world -> response * world :=
  fun w =>
    match body w with
    | (Val r, w') => (r, w')
    | (Return r, w') => (r, w')
    | (Raised e, w') => (FailureResponse error_prefix e, w')
    end.

(* ================================================================= *)
(** ** The route handlers *)

(** [allowed_file(filename)] *)
Definition allowed_file (filename : string) : bool :=
  contains "." filename
  && match after_last_dot filename with
     | Some ext => existsb (String.eqb (lower ext)) ALLOWED_EXTENSIONS
     | None => false
     end.

(** The refinement prompt built in [regenerate_tests] (the f-string bound to
    [final_prompt]). *)
Definition final_prompt (original_prompt old_test_code suggestions : string)
  : string :=
  nl
  ++ lines
       [ "You are a senior QA automation engineer and Java expert.";
         "";
         "Context:";
         "The following JUnit 5 test code was previously generated using the given API specification.";
         "";
         "ORIGINAL PROMPT:";
         original_prompt;
         "";
         "EXISTING TEST CODE:";
         old_test_code;
         "";
         "USER FEEDBACK:";
         suggestions;
         "";
         "TASK:";
         "Improve the test code based on user feedback and regenerate the complete updated test class following best practices.";
         "" ].

Definition java_fence : string := "```java".
Definition fence : string := "```".

(** The extraction of the code block from the markdown response, the
    [if]/[elif] of [regenerate_tests].  ["```java" in improved_tests] holds
    exactly when [find] gives an index. *)
Definition extract_code_block (improved_tests : string) : string :=
  match find improved_tests java_fence 0 with
  | Some i =>
      let code_start := i + String.length java_fence in
      match find improved_tests fence code_start with
      | Some code_end => strip (slice improved_tests code_start code_end)
      | None => improved_tests
      end
  | None =>
      if contains fence improved_tests then
        let parts := split improved_tests fence in
        if (3 <=? List.length parts)%nat then strip (nth 1 parts "")
        else improved_tests
      else improved_tests
  end.

(** The same on what the generation client returned: [in] raises TypeError
    on [None]. *)
Definition extract_from_response (improved_tests : option string)
  : result string :=
  match improved_tests with
  | Some text => Ok (extract_code_block text)
  | None => Raise TypeError
  end.

(** The loop over [os.listdir(...)] with its [break]: the first name [f]
    with [needle in f.lower()]. *)
Fixpoint first_match (needle : string) (names : list string) : option string :=
  match names with
  | [] => None
  | f :: rest => if contains needle (lower f) then Some f else first_match needle rest
  end.

Section Handlers.

(** Collaborators that are not part of app.py: [werkzeug]'s
    [secure_filename], [SpecParser.parse_openapi_spec] and
    [GraniteClient.generate_test_cases] (which returns a text or [None], or
    raises). *)
Variable secure_filename : string -> string.
Variable parse_openapi_spec : string -> string -> result pyval.
Variable generate_test_cases : string -> result (option string).

(** The call [granite_client.generate_test_cases(prompt)]. *)
Definition call_granite (prompt : string) : handler (option string) :=
  log_prompt prompt ;;;
  lift (generate_test_cases prompt).

(** An uploaded file: [request.files['file']], as its name and content;
    [uuid] is the value [uuid.uuid4()] takes in this request. *)
Definition generate_tests_body (file : option (string * string)) (uuid : string)
  : handler response :=
  match file with
  | None => return_ (ErrorResponse 400 "No file uploaded")
  | Some (file_name, content) =>
      if String.eqb file_name "" then return_ (ErrorResponse 400 "No file selected")
      else if negb (allowed_file file_name)
      then return_ (ErrorResponse 400 "Invalid file type. Please upload JSON, YAML, or YML files.")
      else
        let filename := secure_filename file_name in
        let unique_filename := uuid ++ "_" ++ filename in
        let filepath := Os.path_join UPLOAD_FOLDER unique_filename in
        files <-- get_fs ;;
        set_fs (Os.write_text filepath content files) ;;;
        files <-- get_fs ;;
        file_content <-- lift (Os.read_text filepath files) ;;
        file_extension <-- lift (match after_last_dot filename with
                                 | Some ext => Ok (lower ext)
                                 | None => Raise IndexError
                                 end) ;;
        api_info <-- lift (parse_openapi_spec file_content file_extension) ;;
        prompt <-- lift (create_test_generation_prompt api_info) ;;
        generated_tests <-- call_granite prompt ;;
        match generated_tests with
        | None =>
            return_ (ErrorResponse 500 "Test generation failed or returned empty result.")
        | Some generated_tests =>
            if negb (nonempty generated_tests) || negb (nonempty (strip generated_tests))
            then return_ (ErrorResponse 500 "Test generation failed or returned empty result.")
            else
              title <-- lift (getitem api_info "title") ;;
              name <-- lift (str_replace title " " "_") ;;
              let test_filename := name ++ "_Tests.java" in
              let test_filepath := Os.path_join GENERATED_TESTS_FOLDER test_filename in
              files <-- get_fs ;;
              set_fs (Os.write_text test_filepath generated_tests files) ;;;
              files <-- get_fs ;;
              files <-- lift (Os.remove filepath files) ;;
              set_fs files ;;;
              api_title <-- lift (getitem api_info "title") ;;
              endpoints <-- lift (getitem api_info "endpoints") ;;
              endpoints_count <-- lift (len endpoints) ;;
              hret (GenerateSuccess generated_tests test_filename api_title endpoints_count)
        end
  end.

Definition generate_tests (file : option (string * string)) (uuid : string)
  : world -> response * world :=
  try_except "Failed to generate tests: " (generate_tests_body file uuid).

(** [data] is the parsed JSON body, [request.get_json()]. *)
Definition regenerate_tests_body (data : pyval) : handler response :=
  filename <-- lift (get data "filename" VNone) ;;
  suggestions <-- lift (s <- get data "suggestions" (VStr "") ;; str_strip s) ;;
  if negb (truthy filename) || negb (nonempty suggestions)
  then return_ (ErrorResponse 400 "Missing filename or suggestions")
  else
    filename <-- lift (match filename with
                       | VStr s => Ok s
                       | _ => Raise TypeError
                       end) ;;
    let test_path := Os.path_join GENERATED_TESTS_FOLDER filename in
    files <-- get_fs ;;
    if negb (Os.exists_ test_path files)
    then return_ (ErrorResponse 404 "Test file not found")
    else
      old_test_code <-- lift (Os.read_text test_path files) ;;
      let api_title := replace (replace filename "_Tests.java" "") "_" " " in
      let matched_file :=
        first_match (replace (lower api_title) " " "") (Os.listdir UPLOAD_FOLDER files) in
      match matched_file with
      | None => return_ (ErrorResponse 404 "Original API file not found for regeneration")
      | Some matched_file =>
          if negb (nonempty matched_file)
          then return_ (ErrorResponse 404 "Original API file not found for regeneration")
          else
            let upload_path := Os.path_join UPLOAD_FOLDER matched_file in
            original_spec_content <-- lift (Os.read_text upload_path files) ;;
            file_extension <-- lift (match after_last_dot matched_file with
                                     | Some ext => Ok (lower ext)
                                     | None => Raise IndexError
                                     end) ;;
            api_info <-- lift (parse_openapi_spec original_spec_content file_extension) ;;
            original_prompt <-- lift (create_test_generation_prompt api_info) ;;
            improved_tests <-- call_granite
                                 (final_prompt original_prompt old_test_code suggestions) ;;
            improved_tests <-- lift (extract_from_response improved_tests) ;;
            files <-- get_fs ;;
            set_fs (Os.write_text test_path improved_tests files) ;;;
            hret (RegenerateSuccess improved_tests filename
                    "Test cases regenerated successfully" suggestions api_title)
      end.

Definition regenerate_tests (data : pyval) : world -> response * world :=
  try_except "Failed to regenerate tests: " (regenerate_tests_body data).

End Handlers.

(* ================================================================= *)
(** ** Vocabulary of the properties *)

(** *** Occurrences of a pattern *)

(** [pat] occurs in [s] at index [k]. *)
Definition occurs_at (pat s : string) (k : nat) : Prop :=
  substring k (String.length pat) s = pat.

(** [k] is the first index from [start] on at which [pat] occurs in [s]. *)
Definition first_occurrence (pat s : string) (start k : nat) : Prop :=
  start <= k /\ occurs_at pat s k /\
  forall m, start <= m -> m < k -> ~ occurs_at pat s m.

(** Every character of [s] is white space. *)
Fixpoint all_space (s : string) : bool :=
  match s with
  | "" => true
  | String c s' => isspace c && all_space s'
  end.

(** *** Records the renderer accepts *)

(** The keys of [api_info] the renderer reads. *)
Definition api_description_keys : list string :=
  ["title"; "version"; "description"; "base_url"; "endpoints"; "schemas"].

Definition is_str (v : pyval) : bool :=
  match v with VStr _ => true | _ => false end.

Definition is_dict (v : pyval) : bool :=
  match v with VDict _ => true | _ => false end.

(** A key that is present holds a value of the right shape. *)
Definition when_present (shape : pyval -> bool) (o : option pyval) : bool :=
  match o with
  | Some v => shape v
  | None => true
  end.

Definition field_shape (k : string) (shape : pyval -> bool) (v : pyval) : bool :=
  match v with
  | VDict d => when_present shape (lookup k d)
  | _ => false
  end.

Definition list_of (shape : pyval -> bool) (v : pyval) : bool :=
  match v with
  | VList l => forallb shape l
  | _ => false
  end.

Definition dict_of (shape : pyval -> bool) (v : pyval) : bool :=
  match v with
  | VDict d => forallb (fun kv => shape (snd kv)) d
  | _ => false
  end.

(** The shape of an API description (section 3 of the specification), each
    key being free to be absent: the title is a string; the endpoints are a
    list of dicts whose parameters are a list of dicts with string names and
    whose responses are a dict; the schemas map names to dicts whose
    properties map names to dicts. *)
Definition parameter_shape : pyval -> bool := field_shape "name" is_str.

Definition endpoint_shape (e : pyval) : bool :=
  field_shape "parameters" (list_of parameter_shape) e
  && field_shape "responses" is_dict e.

Definition schema_shape : pyval -> bool :=
  field_shape "properties" (dict_of is_dict).

Definition api_description_shape (api_info : pyval) : bool :=
  field_shape "title" is_str api_info
  && field_shape "endpoints" (list_of endpoint_shape) api_info
  && field_shape "schemas" (dict_of schema_shape) api_info.

Definition has_key (k : string) (v : pyval) : bool :=
  match v with
  | VDict d => match lookup k d with Some _ => true | None => false end
  | _ => false
  end.

(** The keys the renderer subscripts: five on the record, two on every
    endpoint. *)
Definition required_keys : list string :=
  ["endpoints"; "method"; "path"; "title"; "version"; "description"; "base_url"].

Definition endpoint_complete (e : pyval) : bool :=
  has_key "method" e && has_key "path" e.

Definition complete (api_info : pyval) : bool :=
  has_key "title" api_info && has_key "version" api_info
  && has_key "description" api_info && has_key "base_url" api_info
  && match getitem api_info "endpoints" with
     | Ok endpoints =>
         match iterate endpoints with
         | Ok es => forallb endpoint_complete es
         | Raise _ => false
         end
     | Raise _ => false
     end.

(** *** Refinement requests *)

(** The feedback is missing or blank. *)
Definition feedback_empty (data : list (string * pyval)) : Prop :=
  lookup "suggestions" data = None
  \/ exists raw, lookup "suggestions" data = Some (VStr raw) /\ strip raw = "".

(** The body carries a file name, and a feedback that is not blank once
    stripped. *)
Definition filename_given (data : list (string * pyval)) (filename : string) : Prop :=
  lookup "filename" data = Some (VStr filename) /\ filename <> "".

Definition feedback_given (data : list (string * pyval)) (suggestions : string)
  : Prop :=
  exists raw, lookup "suggestions" data = Some (VStr raw)
              /\ strip raw = suggestions /\ suggestions <> "".

(** The title the handler recovers from the file name, and the upload it
    picks for it. *)
Definition api_title_of (filename : string) : string :=
  replace (replace filename "_Tests.java" "") "_" " ".

Definition matched_upload (filename : string) (w : world) : option string :=
  first_match (replace (lower (api_title_of filename)) " " "")
    (Os.listdir UPLOAD_FOLDER (fs w)).

(** What a matched upload must provide for the handler to reach the
    generation client: it can be read, its name has an extension, and its
    content parses and renders. *)
Definition original_prompt_of
  (parse_openapi_spec : string -> string -> result pyval)
  (matched_file : string) (w : world) (original_prompt : string) : Prop :=
  matched_file <> ""
  /\ exists content ext api_info,
      lookup (Os.path_join UPLOAD_FOLDER matched_file) (fs w) = Some content
      /\ after_last_dot matched_file = Some ext
      /\ parse_openapi_spec (universal_newlines content) (lower ext) = Ok api_info
      /\ create_test_generation_prompt api_info = Ok original_prompt.

(** The fixed text of the refinement prompt, around its three inputs. *)
Definition refinement_intro : string :=
  nl ++ lines
          [ "You are a senior QA automation engineer and Java expert.";
            "";
            "Context:";
            "The following JUnit 5 test code was previously generated using the given API specification.";
            "";
            "ORIGINAL PROMPT:";
            "" ].

Definition existing_code_heading : string :=
  nl ++ nl ++ "EXISTING TEST CODE:" ++ nl.

Definition feedback_heading : string :=
  nl ++ nl ++ "USER FEEDBACK:" ++ nl.

Definition closing_instruction : string :=
  nl ++ nl ++ "TASK:" ++ nl
  ++ "Improve the test code based on user feedback and regenerate the complete updated test class following best practices."
  ++ nl.

(** The four ways a refinement request is refused. *)
Inductive refinement_failure : Type :=
| MissingFilename
| EmptyFeedback
| MissingArtifact
| UnresolvableSpec.

Definition filename_missing (data : list (string * pyval)) : Prop :=
  truthy (match lookup "filename" data with Some v => v | None => VNone end) = false.

(** The request shows the failure [c] and none of those checked before it.
    The two failures found in the file system are those of a request that
    names a plain file. *)
Definition exhibits (c : refinement_failure) (data : list (string * pyval))
  (w : world) : Prop :=
  match c with
  | MissingFilename =>
      filename_missing data /\ exists suggestions, feedback_given data suggestions
  | EmptyFeedback =>
      (exists filename, filename_given data filename) /\ feedback_empty data
  | MissingArtifact =>
      exists filename suggestions,
        filename_given data filename /\ Os.plain_name filename = true
        /\ feedback_given data suggestions
        /\ lookup (Os.path_join GENERATED_TESTS_FOLDER filename) (fs w) = None
  | UnresolvableSpec =>
      exists filename suggestions old_test_code,
        filename_given data filename /\ Os.plain_name filename = true
        /\ feedback_given data suggestions
        /\ lookup (Os.path_join GENERATED_TESTS_FOLDER filename) (fs w)
           = Some old_test_code
        /\ (matched_upload filename w = None \/ matched_upload filename w = Some "")
  end.

Definition error_status (c : refinement_failure) : Z :=
  match c with
  | MissingFilename | EmptyFeedback => 400
  | MissingArtifact | UnresolvableSpec => 404
  end.

Definition error_message (c : refinement_failure) : string :=
  match c with
  | MissingFilename | EmptyFeedback => "Missing filename or suggestions"
  | MissingArtifact => "Test file not found"
  | UnresolvableSpec => "Original API file not found for regeneration"
  end.

(** The four failures are answered with four different messages. *)
Definition distinct_messages
  (parse_openapi_spec : string -> string -> result pyval)
  (generate_test_cases : string -> result (option string)) : Prop :=
  forall c1 c2 data1 w1 data2 w2,
    c1 <> c2 ->
    exhibits c1 data1 w1 ->
    exhibits c2 data2 w2 ->
    fst (regenerate_tests parse_openapi_spec generate_test_cases (VDict data1) w1)
    <> fst (regenerate_tests parse_openapi_spec generate_test_cases (VDict data2) w2).

(** *** Sample data *)

Definition pet_store_fields : list (string * pyval) :=
  [ ("title", VStr "Pet Store"); ("version", VStr "2.0");
    ("description", VStr ""); ("base_url", VStr "http://localhost");
    ("endpoints",
      VList [ VDict [ ("method", VStr "GET"); ("path", VStr "/pets");
                      ("summary", VStr "List pets");
                      ("parameters", VList []);
                      ("responses", VDict [("200", VDict [])]) ] ]);
    ("schemas", VDict []) ].

Definition pet_store : pyval := VDict pet_store_fields.

Definition no_version : pyval :=
  VDict [ ("title", VStr "Pet Store"); ("description", VStr "");
          ("base_url", VStr "http://localhost"); ("endpoints", VList []) ].

Definition bare_endpoint : list (string * pyval) :=
  [("method", VStr "GET"); ("path", VStr "/pets")].

(** A stored test file with the upload it was generated from, and stand-ins
    for the parser and the generation client. *)
Definition sample_world : world :=
  mkWorld [ ("generated_tests/Pet_Store_Tests.java", "class PetStoreTests {}");
            ("uploads/0f8a_petstore.json", "{}") ]
          [].

Definition sample_parse (content extension : string) : result pyval :=
  Ok pet_store.

Definition sample_generate (answer : option string) (prompt : string)
  : result (option string) :=
  Ok answer.

Definition refine_request : list (string * pyval) :=
  [ ("filename", VStr "Pet_Store_Tests.java");
    ("suggestions", VStr " add negative tests ") ].

Definition request_without_filename : list (string * pyval) :=
  [ ("suggestions", VStr "add negative tests") ].

Definition request_with_blank_feedback : list (string * pyval) :=
  [ ("filename", VStr "Pet_Store_Tests.java"); ("suggestions", VStr "   ") ].

Definition request_for_unknown_file : list (string * pyval) :=
  [ ("filename", VStr "Orders_Tests.java"); ("suggestions", VStr "add negative tests") ].

Definition pet_store_prompt : string :=
  match create_test_generation_prompt pet_store with
  | Ok prompt => prompt
  | Raise _ => ""
  end.


(* ================================================================= *)
(** ** Vocabulary of the further properties *)

(** The text after the first [n] characters. *)
Definition drop (n : nat) (s : string) : string :=
  substring n (String.length s - n) s.

(** The path an upload is saved under, and an upload that passes the checks
    of [generate_tests]. *)
Definition upload_path (secure_filename : string -> string) (uuid name : string)
  : string :=
  Os.path_join UPLOAD_FOLDER (uuid ++ "_" ++ secure_filename name).

Definition valid_upload (file : option (string * string)) (name content : string)
  : Prop :=
  file = Some (name, content) /\ name <> "" /\ allowed_file name = true.

(** The name an upload is saved under is plain. *)
Definition plain_upload (secure_filename : string -> string) (uuid name : string)
  : Prop :=
  Os.plain_name (uuid ++ "_" ++ secure_filename name) = true.

(** The request fails after the upload has been saved and before the test
    file is opened: the saved name has no extension, the parser or the
    renderer raises, or the generation client raises or answers nothing or
    a blank text. *)
Definition fails_before_storing
  (secure_filename : string -> string)
  (parse_openapi_spec : string -> string -> result pyval)
  (generate_test_cases : string -> result (option string))
  (name content : string) : Prop :=
  match after_last_dot (secure_filename name) with
  | None => True
  | Some ext =>
      match parse_openapi_spec (universal_newlines content) (lower ext) with
      | Raise _ => True
      | Ok api_info =>
          match create_test_generation_prompt api_info with
          | Raise _ => True
          | Ok prompt =>
              match generate_test_cases prompt with
              | Raise _ => True
              | Ok None => True
              | Ok (Some text) => strip text = ""
              end
          end
      end
  end.

(** The file a generation for [title] is stored in. *)
Definition test_filename_of (title : string) : string :=
  replace title " " "_" ++ "_Tests.java".

(** What [health_check] answers: [jsonify] of the healthy report, or of the
    unhealthy one with status 500. *)
Inductive health_response : Type :=
| Healthy (granite_model project_id : pyval) (test_response : string)
| Unhealthy (error : exn).

Definition health_prompt : string :=
  "Hello, respond with 'OK' if you can process this request.".

Section HealthCheck.

(** The generation client, with its attributes [model_id] and [project_id]. *)
Variable generate_test_cases : string -> result (option string).
Variable model_id project_id : pyval.

(** [response.strip()] raises AttributeError on [None]. *)
Definition health_check (w : world) : health_response * world :=
  let w' := mkWorld (fs w) (sent w ++ [health_prompt])%list in
  match generate_test_cases health_prompt with
  | Ok (Some response) => (Healthy model_id project_id (strip response), w')
  | Ok None => (Unhealthy AttributeError, w')
  | Raise e => (Unhealthy e, w')
  end.

End HealthCheck.

(** A [secure_filename] that finds nothing to change. *)
Definition keep_name (name : string) : string := name.

(** *** More sample data *)

Definition petstore_upload : option (string * string) :=
  Some ("petstore.json", "{}").

Definition two_endpoints : list pyval :=
  [ VDict [("method", VStr "GET"); ("path", VStr "/b")];
    VDict [("method", VStr "GET"); ("path", VStr "/a")] ].

(* ================================================================= *)
(** ** What [find] computes *)

Lemma index_from_le (pat s : string) :
  forall n m, index n pat s = Some m -> n <= m.
Proof.
  induction s as [|c s IH]; intros n m H.
  - destruct n; simpl in H.
    + destruct pat; inversion H; lia.
    + discriminate.
  - destruct n as [|n]; [lia|].
    simpl in H.
    destruct (index n pat s) as [k|] eqn:E; inversion H; subst.
    apply IH in E. lia.
Qed.

Lemma find_first_occurrence (pat s : string) (start k : nat) :
  pat <> "" -> first_occurrence pat s start k -> find s pat start = Some k.
Proof.
  intros Hne (Hle & Hocc & Hmin). unfold find.
  destruct (index start pat s) as [m|] eqn:E.
  - pose proof (index_correct1 _ _ _ _ E) as H1.
    pose proof (index_correct2 _ _ _ _ E) as H2.
    pose proof (index_from_le _ _ _ _ E) as H3.
    destruct (Nat.lt_trichotomy m k) as [Hlt|[Heq|Hgt]].
    + exfalso. apply (Hmin m H3 Hlt). exact H1.
    + now subst.
    + exfalso. apply (H2 k Hle Hgt). exact Hocc.
  - exfalso. apply (index_correct3 _ k _ _ E Hne Hle). exact Hocc.
Qed.

Lemma find_no_occurrence (pat s : string) (start : nat) :
  (forall k, start <= k -> ~ occurs_at pat s k) -> find s pat start = None.
Proof.
  intros Hno. unfold find.
  destruct (index start pat s) as [m|] eqn:E; [|reflexivity].
  exfalso. apply (Hno m).
  - exact (index_from_le _ _ _ _ E).
  - exact (index_correct1 _ _ _ _ E).
Qed.

(** A pattern that occurs at [k] has each of its prefixes occurring at [k]. *)
Lemma substring_prefix (a b : string) :
  forall s k, substring k (String.length (a ++ b)) s = a ++ b ->
              substring k (String.length a) s = a.
Proof.
  intros s k. revert s.
  induction k as [|k IHk]; intros s H.
  - revert s H. induction a as [|c a IHa]; intros s H; [now destruct s|].
    destruct s as [|d s]; simpl in H |- *; [discriminate|].
    inversion H; subst. f_equal. now apply IHa.
  - destruct s as [|d s].
    + simpl in H. destruct a; simpl in *; [reflexivity|discriminate].
    + simpl in H |- *. now apply IHk.
Qed.

Lemma java_fence_occurs_fence (s : string) (k : nat) :
  occurs_at java_fence s k -> occurs_at fence s k.
Proof.
  unfold occurs_at. intros H.
  exact (substring_prefix fence "java" s k H).
Qed.


(* ================================================================= *)
(** ** Code extraction *)

(** C3: when the response holds the java-tagged fence (first at index [i])
    and a fence marker after the tag (the next one at index [j]), the
    extraction returns the stripped text between the end of the tag and that
    marker; on the three-line response of the specification it returns
    [class X{}]. *)
Theorem extract_tagged_block :
  (forall (s : string) (i j : nat),
      first_occurrence java_fence s 0 i ->
      first_occurrence fence s (i + String.length java_fence) j ->
      extract_code_block s
      = strip (substring (i + String.length java_fence)
                 (j - (i + String.length java_fence)) s))
  /\ extract_code_block (java_fence ++ nl ++ "class X{}" ++ nl ++ fence)
     = "class X{}".
Proof.
  split; [|reflexivity].
  intros s i j Hi Hj. unfold extract_code_block.
  rewrite (find_first_occurrence java_fence s 0 i); [|discriminate|exact Hi].
  cbv zeta.
  rewrite (find_first_occurrence fence s _ j); [|discriminate|exact Hj].
  reflexivity.
Qed.

Lemma extract_tagged_block_witness :
  first_occurrence java_fence ("Here: ```java int x; ``` done") 0 6
  /\ first_occurrence fence ("Here: ```java int x; ``` done") 13 21
  /\ extract_code_block ("Here: ```java int x; ``` done") = "int x;".
Proof.
  assert (H1 : first_occurrence java_fence ("Here: ```java int x; ``` done") 0 6).
  { split; [lia|]. split; [reflexivity|].
    intros m _ Hm.
    do 6 (destruct m as [|m]; [vm_compute; discriminate|]). lia. }
  assert (H2 : first_occurrence fence ("Here: ```java int x; ``` done") 13 21).
  { split; [lia|]. split; [reflexivity|].
    intros m Hm1 Hm2.
    do 13 (destruct m as [|m]; [lia|]).
    do 8 (destruct m as [|m]; [vm_compute; discriminate|]). lia. }
  split; [exact H1|]. split; [exact H2|].
  exact (proj1 extract_tagged_block _ 6 21 H1 H2).
Defined.

(** Decides a goal [~ occurs_at pat s k] on a literal [s] of fewer than [n]
    characters: by evaluation for [k] below [n], and beyond because nothing
    is left to match. *)
Tactic Notation "scan_occurrences" integer(n) ident(k) :=
  let H := fresh "Hocc" in
  unfold occurs_at; simpl String.length in *;
  do n (destruct k as [|k];
        [first [lia | intros H; vm_compute in H; discriminate H]|]);
  intros H; simpl in H; discriminate H.

(** C4: the extraction fails open.  A java-tagged fence with no fence marker
    after the tag, a plain fence whose split has fewer than three segments,
    and a response without any fence marker all come back unchanged; and on
    every text the extraction returns (it does not raise). *)
Theorem extract_fails_open :
  (forall (s : string) (i : nat),
      first_occurrence java_fence s 0 i ->
      (forall k, i + String.length java_fence <= k -> ~ occurs_at fence s k) ->
      extract_code_block s = s)
  /\ (forall s : string,
         (forall k, ~ occurs_at java_fence s k) ->
         (exists k, occurs_at fence s k) ->
         List.length (split s fence) < 3 ->
         extract_code_block s = s)
  /\ (forall s : string,
         (forall k, ~ occurs_at fence s k) -> extract_code_block s = s)
  /\ (forall s : string, exists code, extract_from_response (Some s) = Ok code).
Proof.
  repeat split.
  - intros s i Hi Hno. unfold extract_code_block.
    rewrite (find_first_occurrence java_fence s 0 i); [|discriminate|exact Hi].
    cbv zeta. now rewrite (find_no_occurrence fence s _ Hno).
  - intros s Hno _ Hlen. unfold extract_code_block.
    rewrite (find_no_occurrence java_fence s 0); [|intros k _; apply Hno].
    destruct (contains fence s); [|reflexivity].
    destruct (Nat.leb_spec 3 (List.length (split s fence))); [lia|reflexivity].
  - intros s Hno. unfold extract_code_block.
    rewrite (find_no_occurrence java_fence s 0).
    + unfold contains.
      now rewrite (find_no_occurrence fence s 0); [|intros k _; apply Hno].
    + intros k _ H. apply (Hno k). now apply java_fence_occurs_fence.
  - intros s. now exists (extract_code_block s).
Qed.

Lemma extract_fails_open_witness :
  extract_code_block "```java int x;" = "```java int x;"
  /\ extract_code_block "int x; ``` done" = "int x; ``` done"
  /\ extract_code_block "int x;" = "int x;".
Proof.
  destruct extract_fails_open as (H1 & H2 & H3 & _).
  split; [|split].
  - apply (H1 _ 0).
    + split; [lia|]. split; [reflexivity|]. intros m Hm; lia.
    + intros k Hk. scan_occurrences 15 k.
  - apply H2.
    + intros k. scan_occurrences 16 k.
    + exists 7. reflexivity.
    + vm_compute. lia.
  - apply H3. intros k. scan_occurrences 7 k.
Defined.

(** Blank text holds no fence marker, so the extraction leaves it alone. *)
Lemma rstrip_keeps_nonspace (c : ascii) (s : string) :
  isspace c = false -> rstrip (String c s) <> "".
Proof.
  intros Hc. simpl. rewrite Hc. now destruct (rstrip s).
Qed.

Lemma lstrip_head (s : string) :
  lstrip s = "" \/ exists c r, lstrip s = String c r /\ isspace c = false.
Proof.
  induction s as [|c s IH]; simpl; [now left|].
  destruct (isspace c) eqn:Hc; [exact IH|].
  right. now exists c, s.
Qed.

Lemma lstrip_empty_all_space (s : string) : lstrip s = "" -> all_space s = true.
Proof.
  induction s as [|c s IH]; simpl; [reflexivity|].
  destruct (isspace c); [exact IH|discriminate].
Qed.

Lemma blank_all_space (s : string) : strip s = "" -> all_space s = true.
Proof.
  unfold strip. intros H. apply lstrip_empty_all_space.
  destruct (lstrip_head s) as [E|(c & r & E & Hc)]; [exact E|].
  rewrite E in H. now apply rstrip_keeps_nonspace in H.
Qed.

Lemma all_space_no_fence (s : string) :
  all_space s = true -> forall k, ~ occurs_at fence s k.
Proof.
  unfold occurs_at.
  induction s as [|c s IH]; intros Hs k H.
  - destruct k; discriminate.
  - simpl in Hs. apply andb_prop in Hs. destruct Hs as [Hc Hs].
    destruct k as [|k].
    + simpl in H. inversion H; subst. discriminate.
    + simpl in H. now apply (IH Hs k).
Qed.

Lemma extract_blank (text : string) :
  strip text = "" -> extract_code_block text = text.
Proof.
  intros H. unfold extract_code_block.
  pose proof (all_space_no_fence text (blank_all_space text H)) as Hno.
  rewrite (find_no_occurrence java_fence text 0).
  - unfold contains.
    now rewrite (find_no_occurrence fence text 0); [|intros k _; apply Hno].
  - intros k _ Hk. apply (Hno k). now apply java_fence_occurs_fence.
Qed.


(* ================================================================= *)
(** ** Reasoning about [result] computations *)

Lemma rbind_ok {A B : Type} (r : result A) (k : A -> result B) (b : B) :
  rbind r k = Ok b -> exists a, r = Ok a /\ k a = Ok b.
Proof.
  destruct r as [a|e]; simpl; intros H; [now exists a|discriminate].
Qed.

Lemma getitem_ok (v : pyval) (k : string) (x : pyval) :
  getitem v k = Ok x -> exists d, v = VDict d /\ lookup k d = Some x.
Proof.
  destruct v; simpl; try discriminate.
  destruct (lookup k d) eqn:E; intros H; inversion H; subst.
  now exists d.
Qed.

(** Splits a hypothesis [x <- r ;; k = Ok b] into [r = Ok a] and [k a = Ok b]. *)
Tactic Notation "invert_bind" hyp(H) "as" ident(Ha) :=
  let a := fresh "a" in
  apply rbind_ok in H; destruct H as (a & Ha & H).

Tactic Notation "invert_bind" hyp(H) :=
  let Ha := fresh "Ha" in
  invert_bind H as Ha.


(* ================================================================= *)
(** ** The rendered prompt *)

(** C2: the prompt is a function of the six fields of the API description
    and of nothing else: two records that carry the same title, version,
    description, base_url, endpoints and schemas render to the same result,
    character for character. *)
Theorem prompt_rendering_deterministic (a b : list (string * pyval)) :
  (forall k, In k api_description_keys -> lookup k a = lookup k b) ->
  create_test_generation_prompt (VDict a) = create_test_generation_prompt (VDict b).
Proof.
  intros H. unfold create_test_generation_prompt, getitem, get.
  rewrite (H "endpoints"), (H "schemas"), (H "title"), (H "version"),
    (H "description"), (H "base_url"); simpl; tauto.
Qed.

Lemma prompt_rendering_deterministic_witness :
  create_test_generation_prompt (VDict (("source", VStr "upload") :: rev pet_store_fields))
  = create_test_generation_prompt pet_store.
Proof.
  apply prompt_rendering_deterministic.
  intros k Hk. simpl in Hk.
  repeat (destruct Hk as [<-|Hk]; [reflexivity|]).
  contradiction.
Defined.

(** C9: with an empty schemas mapping (or none at all) every prompt the
    renderer produces has, between the endpoints and the requirements, the
    data-models block made of the heading and the one line
    [No schemas defined]. *)
Theorem empty_schemas_block (api_info : list (string * pyval)) (prompt : string) :
  lookup "schemas" api_info = Some (VDict []) \/ lookup "schemas" api_info = None ->
  create_test_generation_prompt (VDict api_info) = Ok prompt ->
  exists title version description base_url endpoints_summary class_name,
    prompt
    = prompt_head title version description base_url endpoints_summary
      ++ nl ++ nl ++ "Data Models:" ++ nl ++ "No schemas defined"
      ++ nl ++ nl ++ prompt_tail class_name.
Proof.
  intros Hs H. unfold create_test_generation_prompt in H.
  invert_bind H. invert_bind H. invert_bind H.
  assert (Hget : get (VDict api_info) "schemas" (VDict []) = Ok (VDict [])).
  { simpl. now destruct Hs as [-> | ->]. }
  rewrite Hget in H. simpl in H.
  do 5 invert_bind H.
  inversion H; subst.
  now eexists _, _, _, _, _, _.
Qed.

Lemma empty_schemas_block_witness :
  exists prompt,
    create_test_generation_prompt pet_store = Ok prompt
    /\ exists title version description base_url endpoints_summary class_name,
        prompt
        = prompt_head title version description base_url endpoints_summary
          ++ nl ++ nl ++ "Data Models:" ++ nl ++ "No schemas defined"
          ++ nl ++ nl ++ prompt_tail class_name.
Proof.
  eexists. split; [reflexivity|].
  apply (empty_schemas_block pet_store_fields); [left|]; reflexivity.
Defined.

(** C7: an endpoint whose only parameter has no name renders the
    parameters line [None], the very line of an endpoint without parameters,
    while two unnamed parameters render the two empty places [, ]. *)
Theorem single_unnamed_parameter_rendering :
  endpoint_summary
    (VDict [ ("method", VStr "GET"); ("path", VStr "/pets");
             ("parameters", VList [VDict [("in", VStr "query")]]) ])
  = Ok (nl ++ "- GET /pets" ++ nl ++ "  Summary: N/A" ++ nl
        ++ "  Parameters: None" ++ nl ++ "  Responses: N/A")
  /\ endpoint_summary
       (VDict [ ("method", VStr "GET"); ("path", VStr "/pets");
                ("parameters", VList []) ])
     = Ok (nl ++ "- GET /pets" ++ nl ++ "  Summary: N/A" ++ nl
           ++ "  Parameters: None" ++ nl ++ "  Responses: N/A")
  /\ endpoint_summary
       (VDict [ ("method", VStr "GET"); ("path", VStr "/pets");
                ("parameters", VList [VDict [("in", VStr "query")];
                                      VDict [("in", VStr "path")]]) ])
     = Ok (nl ++ "- GET /pets" ++ nl ++ "  Summary: N/A" ++ nl
           ++ "  Parameters: , " ++ nl ++ "  Responses: N/A").
Proof.
  repeat split; reflexivity.
Qed.

(** The joined names are empty only for no parameter at all or for a single
    parameter with an empty name. *)
Lemma join_empty_iff (sep : string) (ss : list string) :
  sep <> "" -> (join sep ss = "" <-> ss = [] \/ ss = [""]).
Proof.
  intros Hsep. split.
  - destruct ss as [|x [|y ss]]; simpl; intros H; auto.
    + right. now subst.
    + exfalso. destruct x; simpl in H; [|discriminate].
      destruct sep; [now apply Hsep|discriminate].
  - now intros [-> | ->].
Qed.


(* ================================================================= *)
(** ** Which records the renderer accepts *)

Lemma parameter_names_ok (ps : list pyval) :
  forallb parameter_shape ps = true ->
  exists names ss,
    mapM (fun p => get p "name" (VStr "")) ps = Ok names
    /\ as_strings names = Ok ss.
Proof.
  induction ps as [|p ps IH]; simpl; intros H.
  - now exists [], [].
  - apply andb_prop in H. destruct H as [Hp Hps].
    destruct (IH Hps) as (names & ss & -> & Hss).
    destruct p; try discriminate. unfold parameter_shape in Hp. simpl in Hp |- *.
    destruct (lookup "name" d) as [v|]; simpl in Hp |- *.
    + destruct v; try discriminate.
      eexists _, _. split; [reflexivity|]. simpl. now rewrite Hss.
    + eexists _, _. split; [reflexivity|]. simpl. now rewrite Hss.
Qed.

(** On an endpoint of the right shape the summary fails only for want of
    [method] or [path]. *)
Lemma endpoint_summary_shaped (e : pyval) :
  endpoint_shape e = true ->
  if endpoint_complete e
  then exists line, endpoint_summary e = Ok line
  else endpoint_summary e = Raise (KeyError "method")
       \/ endpoint_summary e = Raise (KeyError "path").
Proof.
  intros H. apply andb_prop in H. destruct H as [Hp Hr].
  destruct e; try discriminate.
  unfold endpoint_summary, endpoint_complete. simpl in *.
  assert (Hparams : exists params,
             (ps <- (ps <- Ok (match lookup "parameters" d with
                               | Some x => x
                               | None => VList []
                               end) ;; iterate ps) ;;
              names <- mapM (fun p => get p "name" (VStr "")) ps ;;
              join_values ", " names) = Ok params).
  { destruct (lookup "parameters" d) as [v|]; simpl in *.
    - destruct v; try discriminate. simpl in *.
      destruct (parameter_names_ok _ Hp) as (names & ss & -> & Hss).
      simpl. unfold join_values. rewrite Hss. simpl. now eexists.
    - now eexists. }
  destruct Hparams as (params & Hparams).
  destruct (lookup "parameters" d) as [v|]; simpl in *.
  - destruct (iterate v) as [ps|]; simpl in *; [|discriminate].
    destruct (mapM _ ps) as [names|]; simpl in *; [|discriminate].
    rewrite Hparams. simpl.
    destruct (lookup "responses" d) as [rs|]; simpl in *.
    + destruct rs; try discriminate. simpl.
      destruct (lookup "method" d); simpl; [|now left].
      destruct (lookup "path" d); simpl; [|now right].
      destruct (lookup "summary" d); simpl; now eexists.
    + destruct (lookup "method" d); simpl; [|now left].
      destruct (lookup "path" d); simpl; [|now right].
      destruct (lookup "summary" d); simpl; now eexists.
  - destruct (lookup "responses" d) as [rs|]; simpl in *.
    + destruct rs; try discriminate. simpl.
      destruct (lookup "method" d); simpl; [|now left].
      destruct (lookup "path" d); simpl; [|now right].
      destruct (lookup "summary" d); simpl; now eexists.
    + destruct (lookup "method" d); simpl; [|now left].
      destruct (lookup "path" d); simpl; [|now right].
      destruct (lookup "summary" d); simpl; now eexists.
Qed.

Lemma endpoints_loop_shaped (es : list pyval) :
  forallb endpoint_shape es = true ->
  forall acc,
    if forallb endpoint_complete es
    then exists summary, endpoints_loop es acc = Ok summary
    else endpoints_loop es acc = Raise (KeyError "method")
         \/ endpoints_loop es acc = Raise (KeyError "path").
Proof.
  induction es as [|e es IH]; simpl; intros H acc.
  - now eexists.
  - apply andb_prop in H. destruct H as [He Hes].
    pose proof (endpoint_summary_shaped e He) as Hs.
    destruct (endpoint_complete e); simpl.
    + destruct Hs as (line & ->). simpl. apply (IH Hes).
    + destruct Hs as [-> | ->]; simpl; auto.
Qed.

Lemma property_entries_ok (props : list (string * pyval)) :
  forallb (fun kv => is_dict (snd kv)) props = true ->
  exists l, mapM property_entry props = Ok l.
Proof.
  induction props as [|[k v] props IH]; simpl; intros H.
  - now eexists.
  - apply andb_prop in H. destruct H as [Hv Hps].
    destruct (IH Hps) as (l & ->).
    destruct v; try discriminate.
    unfold property_entry. simpl.
    destruct (lookup "type" d); simpl; now eexists.
Qed.

Lemma schemas_loop_shaped (schemas : list (string * pyval)) :
  forallb (fun kv => schema_shape (snd kv)) schemas = true ->
  forall acc, exists summary, schemas_loop schemas acc = Ok summary.
Proof.
  induction schemas as [|[name schema] schemas IH]; simpl; intros H acc.
  - now eexists.
  - apply andb_prop in H. destruct H as [Hs Hss].
    destruct schema; try discriminate.
    unfold schema_summary, schema_shape in *. simpl in *.
    destruct (lookup "properties" d) as [v|]; simpl in *.
    + destruct v; try discriminate. simpl in *.
      destruct (property_entries_ok _ Hs) as (l & ->). simpl.
      apply (IH Hss).
    + apply (IH Hss).
Qed.

Lemma getitem_has_key (v : pyval) (k : string) (x : pyval) :
  getitem v k = Ok x -> has_key k v = true.
Proof.
  intros H. apply getitem_ok in H. destruct H as (d & -> & H).
  simpl. now rewrite H.
Qed.

Lemma endpoint_summary_ok (e : pyval) (line : string) :
  endpoint_summary e = Ok line -> endpoint_complete e = true.
Proof.
  intros H. unfold endpoint_summary in H.
  do 6 invert_bind H.
  cbv zeta in H.
  invert_bind H as Hmethod. apply getitem_has_key in Hmethod.
  invert_bind H as Hpath. apply getitem_has_key in Hpath.
  unfold endpoint_complete. now rewrite Hmethod, Hpath.
Qed.

Lemma endpoints_loop_ok (es : list pyval) :
  forall acc summary,
    endpoints_loop es acc = Ok summary -> forallb endpoint_complete es = true.
Proof.
  induction es as [|e es IH]; simpl; intros acc summary H; [reflexivity|].
  invert_bind H.
  rewrite (endpoint_summary_ok _ _ Ha). simpl. now apply (IH _ _ H).
Qed.

(** A prompt is produced only from a record that has every required key. *)
Lemma rendered_is_complete (api_info : pyval) (prompt : string) :
  create_test_generation_prompt api_info = Ok prompt -> complete api_info = true.
Proof.
  intros H. unfold create_test_generation_prompt in H.
  invert_bind H as Hendpoints.
  invert_bind H as Hiter.
  invert_bind H as Hloop. apply endpoints_loop_ok in Hloop.
  do 3 invert_bind H.
  invert_bind H as Htitle. apply getitem_has_key in Htitle.
  invert_bind H as Hversion. apply getitem_has_key in Hversion.
  invert_bind H as Hdescription. apply getitem_has_key in Hdescription.
  invert_bind H as Hbase. apply getitem_has_key in Hbase.
  unfold complete.
  now rewrite Htitle, Hversion, Hdescription, Hbase, Hendpoints, Hiter, Hloop.
Qed.

(** On a record of the right shape the renderer fails only for want of a
    required key, with the KeyError of that key. *)
Lemma rendering_shaped (api_info : pyval) :
  api_description_shape api_info = true ->
  if complete api_info
  then exists prompt, create_test_generation_prompt api_info = Ok prompt
  else exists k, In k required_keys
                 /\ create_test_generation_prompt api_info = Raise (KeyError k).
Proof.
  intros H. unfold api_description_shape in H.
  apply andb_prop in H. destruct H as [H Hschemas].
  apply andb_prop in H. destruct H as [Htitle Hendpoints].
  destruct api_info; try discriminate.
  unfold create_test_generation_prompt, complete. simpl in *.
  destruct (lookup "endpoints" d) as [endpoints|]; simpl in *.
  2:{ rewrite !andb_false_r. exists "endpoints". split; [simpl; tauto|reflexivity]. }
  destruct endpoints as [| | | |es|]; try discriminate. simpl in *.
  pose proof (endpoints_loop_shaped es Hendpoints "") as Hloop.
  destruct (forallb endpoint_complete es).
  2:{ rewrite !andb_false_r.
      destruct Hloop as [-> | ->]; simpl;
        [exists "method"|exists "path"]; (split; [simpl; tauto|reflexivity]). }
  destruct Hloop as (summary & ->). simpl.
  assert (Hs : exists schemas_summary,
             (schemas <- (schemas <- Ok (match lookup "schemas" d with
                                         | Some x => x
                                         | None => VDict []
                                         end) ;; items schemas) ;;
              schemas_loop schemas "") = Ok schemas_summary).
  { destruct (lookup "schemas" d) as [v|]; simpl in *.
    - destruct v; try discriminate. simpl in *.
      apply (schemas_loop_shaped _ Hschemas).
    - now eexists. }
  destruct Hs as (schemas_summary & Hs).
  destruct (lookup "schemas" d) as [v|]; simpl in *.
  - destruct (items v) as [schemas|]; simpl in *; [|discriminate].
    rewrite Hs. simpl.
    destruct (lookup "title" d) as [t|]; simpl in *;
      [|exists "title"; split; [simpl; tauto|reflexivity]].
    destruct t; try discriminate.
    destruct (lookup "version" d); simpl;
      [|exists "version"; split; [simpl; tauto|reflexivity]].
    destruct (lookup "description" d); simpl;
      [|exists "description"; split; [simpl; tauto|reflexivity]].
    destruct (lookup "base_url" d); simpl;
      [|exists "base_url"; split; [simpl; tauto|reflexivity]].
    now eexists.
  - destruct (lookup "title" d) as [t|]; simpl in *;
      [|exists "title"; split; [simpl; tauto|reflexivity]].
    destruct t; try discriminate.
    destruct (lookup "version" d); simpl;
      [|exists "version"; split; [simpl; tauto|reflexivity]].
    destruct (lookup "description" d); simpl;
      [|exists "description"; split; [simpl; tauto|reflexivity]].
    destruct (lookup "base_url" d); simpl;
      [|exists "base_url"; split; [simpl; tauto|reflexivity]].
    now eexists.
Qed.

(** C10: the renderer needs the keys title, version, description, base_url
    and endpoints on the record and method and path on every endpoint: it
    produces a prompt only when they are all there, on a record of the
    shape of an API description it produces one whenever they are, and it
    raises the KeyError of a required key otherwise.  The keys summary,
    parameters and responses of an endpoint and the schemas of the record
    may be missing: the result is that of the record holding [N/A], the
    empty list, the empty mapping (rendered [N/A]) and the empty mapping in
    their place. *)
Theorem renderer_required_and_optional_keys :
  (forall api_info prompt,
      create_test_generation_prompt api_info = Ok prompt ->
      complete api_info = true)
  /\ (forall api_info,
         api_description_shape api_info = true ->
         complete api_info = true ->
         exists prompt, create_test_generation_prompt api_info = Ok prompt)
  /\ (forall api_info,
         api_description_shape api_info = true ->
         complete api_info = false ->
         exists k, In k required_keys
                   /\ create_test_generation_prompt api_info = Raise (KeyError k))
  /\ (forall e,
         lookup "summary" e = None ->
         endpoint_summary (VDict e)
         = endpoint_summary (VDict (("summary", VStr "N/A") :: e)))
  /\ (forall e,
         lookup "parameters" e = None ->
         endpoint_summary (VDict e)
         = endpoint_summary (VDict (("parameters", VList []) :: e)))
  /\ (forall e,
         lookup "responses" e = None ->
         endpoint_summary (VDict e)
         = endpoint_summary (VDict (("responses", VDict []) :: e)))
  /\ (forall api_info,
         lookup "schemas" api_info = None ->
         create_test_generation_prompt (VDict api_info)
         = create_test_generation_prompt (VDict (("schemas", VDict []) :: api_info)))
  /\ (forall method path : string,
         endpoint_summary (VDict [("method", VStr method); ("path", VStr path)])
         = Ok (nl ++ "- " ++ method ++ " " ++ path ++ nl
               ++ "  Summary: N/A" ++ nl
               ++ "  Parameters: None" ++ nl
               ++ "  Responses: N/A")).
Proof.
  split; [exact rendered_is_complete|].
  split.
  { intros api_info Hshape Hc.
    pose proof (rendering_shaped api_info Hshape) as H. now rewrite Hc in H. }
  split.
  { intros api_info Hshape Hc.
    pose proof (rendering_shaped api_info Hshape) as H. now rewrite Hc in H. }
  split.
  { intros e H. unfold endpoint_summary. simpl. now rewrite H. }
  split.
  { intros e H. unfold endpoint_summary. simpl. now rewrite H. }
  split.
  { intros e H. unfold endpoint_summary. simpl. now rewrite H. }
  split.
  { intros a H. unfold create_test_generation_prompt. simpl. now rewrite H. }
  intros method path. reflexivity.
Qed.

Lemma renderer_required_and_optional_keys_witness :
  complete pet_store = true
  /\ (exists prompt, create_test_generation_prompt pet_store = Ok prompt)
  /\ (exists k, In k required_keys
                /\ create_test_generation_prompt no_version = Raise (KeyError k))
  /\ endpoint_summary (VDict bare_endpoint)
     = endpoint_summary (VDict (("summary", VStr "N/A") :: bare_endpoint))
  /\ endpoint_summary (VDict bare_endpoint)
     = endpoint_summary (VDict (("parameters", VList []) :: bare_endpoint))
  /\ endpoint_summary (VDict bare_endpoint)
     = endpoint_summary (VDict (("responses", VDict []) :: bare_endpoint))
  /\ create_test_generation_prompt no_version
     = create_test_generation_prompt
         (VDict (("schemas", VDict [])
                   :: [ ("title", VStr "Pet Store"); ("description", VStr "");
                        ("base_url", VStr "http://localhost");
                        ("endpoints", VList []) ])).
Proof.
  destruct renderer_required_and_optional_keys
    as (H1 & H2 & H3 & H4 & H5 & H6 & H7 & _).
  split.
  { apply (H1 pet_store
             (match create_test_generation_prompt pet_store with
              | Ok p => p
              | Raise _ => ""
              end)).
    reflexivity. }
  split; [apply H2; reflexivity|].
  split; [apply H3; reflexivity|].
  split; [apply H4; reflexivity|].
  split; [apply H5; reflexivity|].
  split; [apply H6; reflexivity|].
  apply H7; reflexivity.
Defined.


(* ================================================================= *)
(** ** The file system *)

Lemma lookup_write_text_other (p q text : string) (files : list (string * string)) :
  p <> q -> lookup p (Os.write_text q text files) = lookup p files.
Proof.
  intros Hpq. apply String.eqb_neq in Hpq.
  induction files as [|[p' t'] rest IH]; simpl.
  - now rewrite Hpq.
  - destruct (String.eqb_spec q p') as [->|Hq]; simpl.
    + now rewrite Hpq.
    + now rewrite IH.
Qed.

Lemma lookup_write_text_same (q text : string) (files : list (string * string)) :
  lookup q (Os.write_text q text files) = Some text.
Proof.
  induction files as [|[p' t'] rest IH]; simpl.
  - now rewrite String.eqb_refl.
  - destruct (String.eqb_spec q p') as [->|Hq]; simpl.
    + now rewrite String.eqb_refl.
    + apply String.eqb_neq in Hq. now rewrite Hq.
Qed.


(* ================================================================= *)
(** ** The refinement handler *)

Section Refinement.

Variable parse_openapi_spec : string -> string -> result pyval.
Variable generate_test_cases : string -> result (option string).

Lemma regenerate_without_feedback (data : list (string * pyval)) (w : world) :
  feedback_empty data ->
  regenerate_tests parse_openapi_spec generate_test_cases (VDict data) w
  = (ErrorResponse 400 "Missing filename or suggestions", w).
Proof.
  intros H.
  unfold regenerate_tests, try_except, regenerate_tests_body.
  unfold hbind, lift. simpl.
  destruct H as [-> | (feedback & -> & Hstrip)]; simpl;
    try rewrite Hstrip; simpl;
    destruct (lookup "filename" data); simpl;
    rewrite ?orb_true_r; reflexivity.
Qed.

(** C5: a refinement request whose feedback is missing, empty or made of
    white space only is answered with the 400 error for invalid input, and
    the world is left as it was: no prompt has been sent to the generation
    client and no file has been written. *)
Theorem empty_feedback_rejected (data : list (string * pyval)) (w : world) :
  lookup "suggestions" data = None
  \/ (exists feedback, lookup "suggestions" data = Some (VStr feedback)
                       /\ strip feedback = "") ->
  regenerate_tests parse_openapi_spec generate_test_cases (VDict data) w
  = (ErrorResponse 400 "Missing filename or suggestions", w)
  /\ sent (snd (regenerate_tests parse_openapi_spec generate_test_cases (VDict data) w)) = sent w
  /\ fs (snd (regenerate_tests parse_openapi_spec generate_test_cases (VDict data) w)) = fs w.
Proof.
  intros H. rewrite (regenerate_without_feedback data w H). auto.
Qed.

(** The handler on a request that passes every check: the refinement
    prompt is sent, and what comes back decides the rest. *)
Lemma regenerate_reaches_generation
  (data : list (string * pyval)) (w : world)
  (filename suggestions old_test_code matched_file original_prompt : string) :
  filename_given data filename ->
  feedback_given data suggestions ->
  lookup (Os.path_join GENERATED_TESTS_FOLDER filename) (fs w) = Some old_test_code ->
  matched_upload filename w = Some matched_file ->
  original_prompt_of parse_openapi_spec matched_file w original_prompt ->
  let prompt :=
    final_prompt original_prompt (universal_newlines old_test_code) suggestions in
  let w' := mkWorld (fs w) (sent w ++ [prompt])%list in
  regenerate_tests parse_openapi_spec generate_test_cases (VDict data) w
  = match generate_test_cases prompt with
    | Ok (Some improved_tests) =>
        (RegenerateSuccess (extract_code_block improved_tests) filename
           "Test cases regenerated successfully" suggestions
           (api_title_of filename),
         mkWorld (Os.write_text (Os.path_join GENERATED_TESTS_FOLDER filename)
                    (extract_code_block improved_tests) (fs w))
                 (sent w ++ [prompt])%list)
    | Ok None => (FailureResponse "Failed to regenerate tests: " TypeError, w')
    | Raise e => (FailureResponse "Failed to regenerate tests: " e, w')
    end.
Proof.
  intros (Hfn & Hfn') (raw & Hraw & Hstrip & Hfb) Hstored Hmatch
    (Hname & content & ext & api_info & Hcontent & Hext & Hparse & Hrender).
  intros prompt w'.
  unfold regenerate_tests, try_except, regenerate_tests_body.
  unfold hbind, lift, get_fs, set_fs, return_, hret, call_granite, log_prompt.
  unfold hbind, lift, nonempty. simpl.
  apply String.eqb_neq in Hfn', Hfb, Hname.
  rewrite Hfn, Hraw. simpl. rewrite Hstrip, Hfn', Hfb. simpl.
  unfold Os.exists_, Os.read_text. rewrite Hstored. simpl.
  unfold matched_upload, api_title_of in Hmatch. rewrite Hmatch.
  rewrite Hname. simpl.
  rewrite Hcontent, Hext. simpl. rewrite Hparse, Hrender. simpl.
  fold prompt.
  destruct (generate_test_cases prompt) as [[improved_tests|]|e]; reflexivity.
Qed.

(** C8: the refinement prompt is one block made of the introduction, the
    original generation prompt, the existing test code, the feedback and the
    closing instruction to regenerate the complete updated class, in this
    order and each unchanged; and on a request that passes the checks this
    block, built from the rendered prompt of the matched upload, the stored
    test code and the stripped feedback, is the one prompt sent to the
    generation client. *)
Theorem refinement_prompt_composition :
  (forall original_prompt old_test_code suggestions : string,
      final_prompt original_prompt old_test_code suggestions
      = refinement_intro ++ original_prompt
        ++ existing_code_heading ++ old_test_code
        ++ feedback_heading ++ suggestions
        ++ closing_instruction)
  /\ (forall (data : list (string * pyval)) (w : world)
             (filename suggestions old_test_code matched_file original_prompt : string),
         filename_given data filename ->
         feedback_given data suggestions ->
         Os.read_text (Os.path_join GENERATED_TESTS_FOLDER filename) (fs w)
         = Ok old_test_code ->
         matched_upload filename w = Some matched_file ->
         original_prompt_of parse_openapi_spec matched_file w original_prompt ->
         sent (snd (regenerate_tests parse_openapi_spec generate_test_cases
                      (VDict data) w))
         = (sent w ++ [final_prompt original_prompt old_test_code suggestions])%list).
Proof.
  split; [reflexivity|].
  intros data w filename suggestions old_test_code matched_file original_prompt
    Hfn Hfb Hread Hmatch Horig.
  unfold Os.read_text in Hread.
  destruct (lookup (Os.path_join GENERATED_TESTS_FOLDER filename) (fs w))
    as [stored|] eqn:Hstored; [|discriminate].
  inversion Hread; subst old_test_code.
  rewrite (regenerate_reaches_generation data w filename suggestions stored
             matched_file original_prompt Hfn Hfb Hstored Hmatch Horig).
  now destruct (generate_test_cases _) as [[improved_tests|]|e].
Qed.

(** C6, amended: the refinement handler answers a missing file name and
    an empty feedback with the one message [Missing filename or
    suggestions] (status 400), and, for a request that names a plain file,
    a missing stored test file with [Test file not found] and an
    unresolvable original upload with [Original API file not found for
    regeneration] (both 404), leaving the world unchanged; these three
    messages differ from one another. *)
Theorem refinement_error_messages :
  (forall c data w,
      exhibits c data w ->
      regenerate_tests parse_openapi_spec generate_test_cases (VDict data) w
      = (ErrorResponse (error_status c) (error_message c), w))
  /\ (forall c1 c2,
         error_message c1 = error_message c2 <->
         c1 = c2
         \/ (c1 = MissingFilename /\ c2 = EmptyFeedback)
         \/ (c1 = EmptyFeedback /\ c2 = MissingFilename)).
Proof.
  split.
  - intros c data w H.
    destruct c; simpl in H.
    + destruct H as (Hmissing & fb & raw & Hraw & Hstrip & Hfb).
      unfold regenerate_tests, try_except, regenerate_tests_body.
      unfold hbind, lift. simpl. unfold filename_missing in Hmissing.
      rewrite Hraw. simpl.
      destruct (lookup "filename" data); rewrite Hmissing; reflexivity.
    + destruct H as (_ & Hempty).
      apply regenerate_without_feedback.
      exact Hempty.
    + destruct H as (fn & fb & (Hfn & Hfn') & _ & (raw & Hraw & Hstrip & Hfb) & Hnone).
      unfold regenerate_tests, try_except, regenerate_tests_body.
      unfold hbind, lift, get_fs, return_, nonempty. simpl.
      apply String.eqb_neq in Hfn', Hfb.
      rewrite Hfn, Hraw. simpl. rewrite Hstrip, Hfn', Hfb. simpl.
      unfold Os.exists_. now rewrite Hnone.
    + destruct H as (fn & fb & code & (Hfn & Hfn') & _ & (raw & Hraw & Hstrip & Hfb)
                     & Hstored & Hmatch).
      unfold regenerate_tests, try_except, regenerate_tests_body.
      unfold hbind, lift, get_fs, return_, nonempty. simpl.
      apply String.eqb_neq in Hfn', Hfb.
      rewrite Hfn, Hraw. simpl. rewrite Hstrip, Hfn', Hfb. simpl.
      unfold Os.exists_, Os.read_text. rewrite Hstored. simpl.
      unfold matched_upload, api_title_of in Hmatch.
      destruct Hmatch as [-> | ->]; reflexivity.
  - intros c1 c2. split.
    + destruct c1, c2; simpl; intros H; try discriminate; auto.
    + intros [-> | [[-> ->] | [-> ->]]]; reflexivity.
Qed.

(** The regenerate path accepts a blank generation: on a request that
    passes the checks, a blank answer replaces the stored test code and
    the request is answered as a success. *)
Lemma regenerate_accepts_blank_generation
  (data : list (string * pyval)) (w : world)
  (filename suggestions old_test_code matched_file original_prompt text : string) :
  filename_given data filename ->
  feedback_given data suggestions ->
  lookup (Os.path_join GENERATED_TESTS_FOLDER filename) (fs w) = Some old_test_code ->
  matched_upload filename w = Some matched_file ->
  original_prompt_of parse_openapi_spec matched_file w original_prompt ->
  generate_test_cases
    (final_prompt original_prompt (universal_newlines old_test_code) suggestions)
  = Ok (Some text) ->
  strip text = "" ->
  let answer :=
    regenerate_tests parse_openapi_spec generate_test_cases (VDict data) w in
  fst answer
  = RegenerateSuccess text filename "Test cases regenerated successfully"
      suggestions (api_title_of filename)
  /\ lookup (Os.path_join GENERATED_TESTS_FOLDER filename) (fs (snd answer))
     = Some text.
Proof.
  intros Hfn Hfb Hstored Hmatch Horig Hgen Hblank answer. subst answer.
  rewrite (regenerate_reaches_generation data w filename suggestions old_test_code matched_file
             original_prompt Hfn Hfb Hstored Hmatch Horig).
  cbv zeta. rewrite Hgen, (extract_blank text Hblank). simpl.
  split; [reflexivity|apply lookup_write_text_same].
Qed.

End Refinement.

Lemma empty_feedback_rejected_witness :
  regenerate_tests sample_parse (sample_generate None)
    (VDict request_with_blank_feedback) sample_world
  = (ErrorResponse 400 "Missing filename or suggestions", sample_world)
  /\ sent (snd (regenerate_tests sample_parse (sample_generate None)
                  (VDict request_with_blank_feedback) sample_world))
     = sent sample_world
  /\ fs (snd (regenerate_tests sample_parse (sample_generate None)
                (VDict request_with_blank_feedback) sample_world))
     = fs sample_world.
Proof.
  apply (empty_feedback_rejected sample_parse (sample_generate None)
           request_with_blank_feedback sample_world).
  right. exists "   ". split; reflexivity.
Defined.

Lemma refinement_prompt_composition_witness :
  sent (snd (regenerate_tests sample_parse (sample_generate (Some "class T {}"))
               (VDict refine_request) sample_world))
  = [final_prompt pet_store_prompt "class PetStoreTests {}" "add negative tests"].
Proof.
  apply (proj2 (refinement_prompt_composition sample_parse
                  (sample_generate (Some "class T {}")))
           refine_request sample_world
           "Pet_Store_Tests.java" "add negative tests" "class PetStoreTests {}"
           "0f8a_petstore.json" pet_store_prompt).
  - split; [reflexivity|discriminate].
  - exists " add negative tests ".
    split; [reflexivity|split; [reflexivity|discriminate]].
  - reflexivity.
  - reflexivity.
  - split; [discriminate|].
    exists "{}", "json", pet_store. repeat split; reflexivity.
Defined.

(** C6, as stated, fails: a request without file name and a request with a
    blank feedback are answered with the same message. *)
Lemma missing_filename_and_empty_feedback_share_message :
  ~ distinct_messages sample_parse (sample_generate (Some "class T {}")).
Proof.
  intros H.
  apply (H MissingFilename EmptyFeedback
           request_without_filename sample_world
           request_with_blank_feedback sample_world).
  - discriminate.
  - split; [reflexivity|].
    exists "add negative tests", "add negative tests".
    split; [reflexivity|split; [reflexivity|discriminate]].
  - split.
    + exists "Pet_Store_Tests.java". split; [reflexivity|discriminate].
    + right. exists "   ". split; reflexivity.
  - reflexivity.
Qed.

Lemma refinement_error_messages_witness :
  regenerate_tests sample_parse (sample_generate None)
    (VDict request_for_unknown_file) sample_world
  = (ErrorResponse 404 "Test file not found", sample_world).
Proof.
  apply (proj1 (refinement_error_messages sample_parse (sample_generate None))
           MissingArtifact request_for_unknown_file sample_world).
  exists "Orders_Tests.java", "add negative tests".
  split; [split; [reflexivity|discriminate]|].
  split; [reflexivity|].
  split; [|reflexivity].
  exists "add negative tests".
  split; [reflexivity|split; [reflexivity|discriminate]].
Defined.


(* ================================================================= *)
(** ** Empty generations *)

Section Generation.

Variable secure_filename : string -> string.
Variable parse_openapi_spec : string -> string -> result pyval.
Variable generate_test_cases : string -> result (option string).

(** The generate path refuses an empty generation: when the client only
    ever answers [None] or blank text, no request succeeds, and the only
    file a request may touch is its own upload. *)
Lemma generate_refuses_blank_generation
  (file : option (string * string)) (uuid : string) (w : world) :
  (forall prompt,
      generate_test_cases prompt = Ok None
      \/ exists text, generate_test_cases prompt = Ok (Some text)
                      /\ strip text = "") ->
  let answer :=
    generate_tests secure_filename parse_openapi_spec generate_test_cases
      file uuid w in
  (forall test_cases filename api_title endpoints_count,
      fst answer <> GenerateSuccess test_cases filename api_title endpoints_count)
  /\ (forall p,
         (forall name content,
             file = Some (name, content) ->
             p <> Os.path_join UPLOAD_FOLDER (uuid ++ "_" ++ secure_filename name)) ->
         lookup p (fs (snd answer)) = lookup p (fs w)).
Proof.
  intros Hblank answer. subst answer.
  unfold generate_tests, try_except, generate_tests_body.
  destruct file as [[name content]|]; [|split; [discriminate|reflexivity]].
  destruct (String.eqb name ""); [split; [discriminate|reflexivity]|].
  destruct (negb (allowed_file name)); [split; [discriminate|reflexivity]|].
  unfold hbind, lift, get_fs, set_fs, return_, hret, call_granite, log_prompt.
  unfold hbind, lift. simpl.
  unfold Os.read_text. rewrite lookup_write_text_same. simpl.
  assert (Hfs : forall p,
             (forall name0 content0,
                 Some (name, content) = Some (name0, content0) ->
                 p <> Os.path_join UPLOAD_FOLDER
                        (uuid ++ "_" ++ secure_filename name0)) ->
             lookup p (Os.write_text
                         (Os.path_join UPLOAD_FOLDER
                            (uuid ++ "_" ++ secure_filename name))
                         content (fs w))
             = lookup p (fs w)).
  { intros p Hp. apply lookup_write_text_other. now apply (Hp name content). }
  destruct (after_last_dot (secure_filename name)) as [ext|]; simpl;
    [|split; [discriminate|exact Hfs]].
  destruct (parse_openapi_spec _ _) as [api_info|e]; simpl;
    [|split; [discriminate|exact Hfs]].
  destruct (create_test_generation_prompt api_info) as [prompt|e]; simpl;
    [|split; [discriminate|exact Hfs]].
  destruct (Hblank prompt) as [-> | (text & -> & Hstrip)]; simpl.
  - split; [discriminate|exact Hfs].
  - rewrite Hstrip. simpl. rewrite orb_true_r. simpl.
    split; [discriminate|exact Hfs].
Qed.

End Generation.

(** C1: on the regenerate path an empty or blank generation is not refused.
    A first upload is generated and stored; a second upload of the same
    document meets an empty generation, which the generate path answers with
    its 500 error, keeping the stored file (and the upload); a refinement
    that then meets an empty generation is answered as a success and the
    stored test file is overwritten with the empty text.  The same happens
    with a blank answer and with an empty java fence. *)
Theorem blank_generation_overwrites_stored_tests :
  let path := Os.path_join GENERATED_TESTS_FOLDER "Pet_Store_Tests.java" in
  let generate answer :=
    generate_tests (fun name => name) sample_parse (sample_generate (Some answer))
      (Some ("petstore.json", "{}")) in
  let regenerate answer :=
    regenerate_tests sample_parse (sample_generate (Some answer))
      (VDict refine_request) in
  let first := generate "class PetStoreTests {}" "11aa" (mkWorld [] []) in
  let second := generate "" "22bb" (snd first) in
  let third := regenerate "" (snd second) in
  fst first
  = GenerateSuccess "class PetStoreTests {}" "Pet_Store_Tests.java"
      (VStr "Pet Store") 1
  /\ fs (snd first) = [(path, "class PetStoreTests {}")]
  /\ fst second
     = ErrorResponse 500 "Test generation failed or returned empty result."
  /\ fs (snd second)
     = [(path, "class PetStoreTests {}"); ("uploads/22bb_petstore.json", "{}")]
  /\ fst third
     = RegenerateSuccess "" "Pet_Store_Tests.java"
         "Test cases regenerated successfully" "add negative tests" "Pet Store"
  /\ fs (snd third) = [(path, ""); ("uploads/22bb_petstore.json", "{}")]
  /\ lookup path (fs (snd (regenerate ("  " ++ nl) (snd second))))
     = Some ("  " ++ nl)
  /\ lookup path (fs (snd (regenerate (java_fence ++ nl ++ fence) (snd second))))
     = Some "".
Proof.
  cbv zeta. repeat split; vm_compute; reflexivity.
Qed.

(* ================================================================= *)
(** ** Pieces of a text *)

Lemma append_empty_r (s : string) : s ++ "" = s.
Proof. induction s; simpl; congruence. Qed.

Lemma append_assoc (a b c : string) : (a ++ b) ++ c = a ++ b ++ c.
Proof. induction a; simpl; congruence. Qed.

Lemma length_append (a b : string) :
  String.length (a ++ b) = String.length a + String.length b.
Proof. induction a; simpl; congruence. Qed.

(** An occurrence has room: it ends within the text. *)
Lemma substring_length_le (s : string) :
  forall k n, String.length (substring k n s) <= n.
Proof.
  induction s as [|c s IH]; intros k n.
  - destruct k, n; simpl; lia.
  - destruct k as [|k].
    + destruct n as [|n]; simpl; [lia|]. specialize (IH 0 n). lia.
    + simpl. apply IH.
Qed.

Lemma substring_full_length (s : string) :
  forall k n, 0 < n -> String.length (substring k n s) = n ->
              k + n <= String.length s.
Proof.
  induction s as [|c s IH]; intros k n Hn H.
  - destruct k, n; simpl in *; lia.
  - destruct k as [|k].
    + destruct n as [|n]; simpl in *; [lia|].
      injection H as H.
      destruct n as [|n]; [lia|]. apply IH in H; lia.
    + simpl in *. apply IH in H; lia.
Qed.

Lemma occurs_at_bound (pat s : string) (k : nat) :
  pat <> "" -> occurs_at pat s k -> k + String.length pat <= String.length s.
Proof.
  unfold occurs_at. intros Hpat H. apply substring_full_length.
  - destruct pat; [contradiction|simpl; lia].
  - now rewrite H.
Qed.

(** Reading inside a piece of [s] is reading [s] further on. *)
Lemma substring_substring (s : string) :
  forall a m k n, k + n <= m ->
                  substring k n (substring a m s) = substring (a + k) n s.
Proof.
  induction s as [|c s IH]; intros a m k n H.
  - destruct a, m, k, n; reflexivity.
  - destruct a as [|a].
    + simpl (0 + k). revert s IH m n H c.
      induction k as [|k IHk]; intros s IH m n H c.
      * destruct n as [|n]; [now destruct m|].
        destruct m as [|m]; [lia|]. simpl. f_equal.
        apply (IH 0 m 0 n). lia.
      * destruct m as [|m]; [lia|]. simpl.
        apply (IH 0 m k n). lia.
    + simpl. apply IH. exact H.
Qed.

Lemma substring_append_left (a b : string) :
  forall k n, k + n <= String.length a -> substring k n (a ++ b) = substring k n a.
Proof.
  induction a as [|c a IH]; intros k n H.
  - simpl in H. assert (k = 0) by lia. assert (n = 0) by lia. subst.
    now destruct b.
  - destruct k as [|k].
    + destruct n as [|n]; [reflexivity|]. simpl. f_equal. apply IH. simpl in H. lia.
    + simpl. apply IH. simpl in H. lia.
Qed.

Lemma substring_append_right (a b : string) :
  forall k n, substring (String.length a + k) n (a ++ b) = substring k n b.
Proof.
  induction a as [|c a IH]; intros k n; [reflexivity|]. simpl. apply IH.
Qed.

(** Stripping keeps a piece of the text. *)
Lemma lstrip_suffix (s : string) : exists pre, s = pre ++ lstrip s.
Proof.
  induction s as [|c s [pre IH]]; [now exists ""|]. simpl.
  destruct (isspace c).
  - exists (String c pre). simpl. now f_equal.
  - now exists "".
Qed.

Lemma rstrip_prefix (s : string) : exists post, s = rstrip s ++ post.
Proof.
  induction s as [|c s [post IH]]; [now exists ""|]. simpl.
  destruct (rstrip s) as [|d r] eqn:E.
  - destruct (isspace c).
    + now exists (String c s).
    + exists s. reflexivity.
  - exists post. simpl. f_equal. exact IH.
Qed.

Lemma strip_inside (s : string) : exists pre post, s = pre ++ strip s ++ post.
Proof.
  unfold strip.
  destruct (lstrip_suffix s) as [pre Hpre].
  destruct (rstrip_prefix (lstrip s)) as [post Hpost].
  exists pre, post. now rewrite <- Hpost.
Qed.

Lemma occurs_inside (pat pre t post : string) (k : nat) :
  pat <> "" -> occurs_at pat t k -> occurs_at pat (pre ++ t ++ post) (String.length pre + k).
Proof.
  unfold occurs_at. intros Hpat H.
  rewrite substring_append_right.
  rewrite substring_append_left; [exact H|].
  now apply occurs_at_bound.
Qed.

Lemma no_occurrence_strip (pat s : string) :
  pat <> "" ->
  (forall k, ~ occurs_at pat s k) -> forall k, ~ occurs_at pat (strip s) k.
Proof.
  intros Hpat Hno k H.
  destruct (strip_inside s) as (pre & post & E).
  apply (Hno (String.length pre + k)).
  rewrite E at 1. now apply occurs_inside.
Qed.

Lemma no_occurrence_between (pat s : string) (a j : nat) :
  pat <> "" ->
  (forall m, a <= m -> m < j -> ~ occurs_at pat s m) ->
  forall k, ~ occurs_at pat (substring a (j - a) s) k.
Proof.
  intros Hpat Hno k H.
  pose proof (occurs_at_bound _ _ _ Hpat H) as Hb.
  pose proof (substring_length_le s a (j - a)) as Hl.
  assert (Hlen : 0 < String.length pat) by (destruct pat; [contradiction|simpl; lia]).
  apply (Hno (a + k)); [lia|lia|].
  unfold occurs_at in *.
  rewrite <- (substring_substring s a (j - a)); [exact H|lia].
Qed.

(* ================================================================= *)
(** ** Splitting, and the code between plain fences *)

Lemma extract_without_fence (s : string) :
  (forall k, ~ occurs_at fence s k) -> extract_code_block s = s.
Proof.
  intros Hno. unfold extract_code_block.
  rewrite (find_no_occurrence java_fence s 0).
  - unfold contains.
    now rewrite (find_no_occurrence fence s 0); [|intros k _; apply Hno].
  - intros k _ H. apply (Hno k). now apply java_fence_occurs_fence.
Qed.

Lemma prefix_occurs_at (pat s : string) : prefix pat s = true <-> occurs_at pat s 0.
Proof. apply prefix_correct. Qed.

(** No segment of a split holds the separator. *)
Lemma split_from_segments (sep : string) :
  sep <> "" ->
  forall s k cur,
    (k = 0 -> forall m, m < String.length cur -> ~ occurs_at sep (cur ++ s) m) ->
    (0 < k -> cur = "") ->
    forall seg, In seg (split_from sep k cur s) -> forall m, ~ occurs_at sep seg m.
Proof.
  intros Hsep.
  assert (Hempty : forall m, ~ occurs_at sep "" m).
  { intros m H. apply (occurs_at_bound _ _ _ Hsep) in H.
    destruct sep; [contradiction|simpl in H; lia]. }
  induction s as [|c s IH]; intros k cur H0 Hk seg Hin m Hocc.
  - assert (Hseg : seg = cur).
    { destruct k; simpl in Hin; destruct Hin as [H|H];
        solve [now subst | contradiction]. }
    subst seg. clear Hin.
    destruct k as [|k].
    + pose proof (occurs_at_bound _ _ _ Hsep Hocc) as Hb.
      apply (H0 eq_refl m).
      * destruct sep; [contradiction|simpl in Hb; lia].
      * now rewrite append_empty_r.
    + rewrite (Hk ltac:(lia)) in Hocc. now apply (Hempty m).
  - destruct k as [|k]; cbn [split_from] in Hin.
    + destruct (prefix sep (String c s)) eqn:Hp.
      * destruct Hin as [<-|Hin].
        -- pose proof (occurs_at_bound _ _ _ Hsep Hocc) as Hb.
           apply (H0 eq_refl m).
           ++ destruct sep; [contradiction|simpl in Hb; lia].
           ++ unfold occurs_at in *. now rewrite substring_append_left.
        -- apply (IH _ "" ltac:(intros _ m' Hm'; simpl in Hm'; lia)
                    ltac:(reflexivity) seg Hin m Hocc).
      * apply (IH 0 (cur ++ String c "")) with (seg := seg) (m := m); auto.
        -- intros _ m' Hm'. rewrite append_assoc. simpl.
           rewrite length_append in Hm'. simpl in Hm'.
           destruct (Nat.eq_dec m' (String.length cur)) as [->|Hne].
           ++ intros H. unfold occurs_at in H.
              rewrite <- (Nat.add_0_r (String.length cur)) in H.
              rewrite substring_append_right in H.
              apply prefix_correct in H. congruence.
           ++ apply (H0 eq_refl). lia.
        -- intros Hlt. lia.
    + apply (IH k cur) with (seg := seg) (m := m); try assumption.
      * intros -> m' Hm'. rewrite (Hk ltac:(lia)) in Hm'. simpl in Hm'. lia.
      * intros _. apply Hk. lia.
Qed.

Lemma split_segments (s sep seg : string) :
  sep <> "" -> In seg (split s sep) -> forall m, ~ occurs_at sep seg m.
Proof.
  intros Hsep Hin.
  apply (split_from_segments sep Hsep s 0 "" ); try assumption.
  - intros _ m Hm. simpl in Hm. lia.
  - intros H. lia.
Qed.

Lemma drop_zero (s : string) : drop 0 s = s.
Proof.
  unfold drop. rewrite Nat.sub_0_r.
  induction s as [|c s IH]; [reflexivity|]. simpl. now f_equal.
Qed.

Lemma drop_cons (n : nat) (c : ascii) (s : string) :
  drop (S n) (String c s) = drop n s.
Proof. reflexivity. Qed.

Lemma split_from_skip (sep : string) :
  forall s k, k <= String.length s ->
              split_from sep k "" s = split_from sep 0 "" (drop k s).
Proof.
  induction s as [|c s IH]; intros k Hk.
  - simpl in Hk. assert (k = 0) by lia. now subst.
  - destruct k as [|k].
    + now rewrite drop_zero.
    + rewrite drop_cons. simpl. apply IH. simpl in Hk. lia.
Qed.

Lemma first_occurrence_tail (pat : string) (c : ascii) (s : string) (i : nat) :
  first_occurrence pat (String c s) 0 (S i) -> first_occurrence pat s 0 i.
Proof.
  intros (_ & Hocc & Hmin). split; [lia|]. split.
  - exact Hocc.
  - intros m _ Hm. apply (Hmin (S m)); lia.
Qed.

(** A split starts with the text before the first separator and goes on
    with the split of the text after it. *)
Lemma split_from_first (sep : string) :
  sep <> "" ->
  forall s cur i,
    first_occurrence sep s 0 i ->
    split_from sep 0 cur s
    = (cur ++ substring 0 i s)
        :: split_from sep 0 "" (drop (i + String.length sep) s).
Proof.
  intros Hsep. induction s as [|c s IH]; intros cur i Hi.
  - destruct Hi as (_ & Hocc & _).
    apply (occurs_at_bound _ _ _ Hsep) in Hocc.
    destruct sep; [contradiction|simpl in Hocc; lia].
  - destruct i as [|i].
    + destruct Hi as (_ & Hocc & _).
      pose proof (occurs_at_bound _ _ _ Hsep Hocc) as Hb.
      apply prefix_correct in Hocc. cbn [split_from]. rewrite Hocc.
      change (substring 0 0 (String c s)) with "".
      rewrite append_empty_r. f_equal.
      destruct sep as [|d sep]; [contradiction|].
      simpl String.length in *.
      replace (S (String.length sep) - 1) with (String.length sep) by lia.
      change (0 + S (String.length sep)) with (S (String.length sep)).
      rewrite drop_cons. apply split_from_skip. lia.
    + assert (Hp : prefix sep (String c s) = false).
      { destruct (prefix sep (String c s)) eqn:E; [|reflexivity].
        apply prefix_correct in E. destruct Hi as (_ & _ & Hmin).
        exfalso. apply (Hmin 0); [lia|lia|exact E]. }
      cbn [split_from]. rewrite Hp.
      rewrite (IH _ i (first_occurrence_tail _ _ _ _ Hi)).
      rewrite append_assoc. reflexivity.
Qed.

Lemma split_from_nonempty (sep : string) :
  forall s k cur, split_from sep k cur s <> [].
Proof.
  induction s as [|c s IH]; intros k cur; cbn [split_from]; [discriminate|].
  destruct k; [|apply IH].
  destruct (prefix sep (String c s)); [discriminate|apply IH].
Qed.

Lemma drop_length (s : string) :
  forall n, n <= String.length s -> String.length (drop n s) = String.length s - n.
Proof.
  induction s as [|c s IH]; intros n Hn.
  - simpl in Hn. assert (n = 0) by lia. now subst.
  - destruct n as [|n].
    + now rewrite drop_zero.
    + rewrite drop_cons. simpl. apply IH. simpl in Hn. lia.
Qed.

Lemma substring_drop (s : string) (a k n : nat) :
  a + k + n <= String.length s ->
  substring k n (drop a s) = substring (a + k) n s.
Proof.
  intros H. unfold drop. apply substring_substring. lia.
Qed.

Lemma first_occurrence_drop (pat s : string) (a j : nat) :
  pat <> "" ->
  first_occurrence pat s a j -> first_occurrence pat (drop a s) 0 (j - a).
Proof.
  intros Hpat (Hle & Hocc & Hmin).
  pose proof (occurs_at_bound _ _ _ Hpat Hocc) as Hb.
  split; [lia|]. split.
  - unfold occurs_at in *. rewrite substring_drop; [|lia].
    now replace (a + (j - a)) with j by lia.
  - intros m _ Hm H.
    pose proof (occurs_at_bound _ _ _ Hpat H) as Hb'.
    rewrite drop_length in Hb' by lia.
    apply (Hmin (a + m)); [lia|lia|].
    unfold occurs_at in *. rewrite <- substring_drop; [exact H|lia].
Qed.

(** X8: with plain fences only, the code is the text between the first two
    markers. *)
Theorem extract_plain_block (s : string) (i j : nat) :
  (forall k, ~ occurs_at java_fence s k) ->
  first_occurrence fence s 0 i ->
  first_occurrence fence s (i + String.length fence) j ->
  extract_code_block s
  = strip (substring (i + String.length fence) (j - (i + String.length fence)) s).
Proof.
  intros Hno Hi Hj.
  assert (Hf : fence <> "") by discriminate.
  unfold extract_code_block.
  rewrite (find_no_occurrence java_fence s 0); [|intros k _; apply Hno].
  unfold contains. rewrite (find_first_occurrence fence s 0 i Hf Hi).
  unfold split.
  rewrite (split_from_first fence Hf s "" i Hi).
  pose proof (first_occurrence_drop fence s _ j Hf Hj) as Hj'.
  rewrite (split_from_first fence Hf _ "" _ Hj').
  destruct (split_from fence 0 "" _) as [|x rest] eqn:E;
    [now apply split_from_nonempty in E|].
  cbn [List.length Nat.leb nth]. simpl ("" ++ _).
  f_equal.
  destruct Hj as (Hle & Hocc & _).
  pose proof (occurs_at_bound _ _ _ Hf Hocc) as Hb.
  simpl String.length in *.
  rewrite substring_drop; [|lia].
  now rewrite Nat.add_0_r.
Qed.

Lemma extract_plain_block_witness :
  extract_code_block "Code: ```python x``` ok" = "python x".
Proof.
  apply (extract_plain_block "Code: ```python x``` ok" 6 17).
  - intros k. scan_occurrences 24 k.
  - split; [lia|]. split; [reflexivity|].
    intros m _ Hm. scan_occurrences 24 m.
  - split; [simpl; lia|]. split; [reflexivity|].
    intros m Hm1 Hm2. scan_occurrences 24 m.
Defined.

(** What the extraction returns is the response itself or a text without
    fence marker. *)
Lemma extract_result (s : string) :
  extract_code_block s = s \/ forall k, ~ occurs_at fence (extract_code_block s) k.
Proof.
  assert (Hf : fence <> "") by discriminate.
  unfold extract_code_block.
  destruct (find s java_fence 0) as [i|] eqn:Hi.
  - cbv zeta.
    destruct (find s fence (i + String.length java_fence)) as [j|] eqn:Hj;
      [right|now left].
    apply (no_occurrence_strip _ _ Hf).
    unfold slice. apply (no_occurrence_between _ _ _ _ Hf).
    intros m Hm1 Hm2. exact (index_correct2 _ _ _ _ Hj m Hm1 Hm2).
  - destruct (contains fence s); [|now left].
    cbv zeta.
    destruct (3 <=? List.length (split s fence))%nat eqn:Hlen; [right|now left].
    apply (no_occurrence_strip _ _ Hf).
    apply (split_segments s fence _ Hf).
    apply nth_In. apply Nat.leb_le in Hlen. lia.
Qed.

(** X9: extracting twice is extracting once. *)
Theorem extract_idempotent (s : string) :
  extract_code_block (extract_code_block s) = extract_code_block s.
Proof.
  destruct (extract_result s) as [E|Hno].
  - now rewrite !E.
  - now apply extract_without_fence.
Qed.

(* ================================================================= *)
(** ** Uploads and stored files *)

(** *** Files written and removed *)

Lemma remove_written (p text : string) (files : list (string * string)) :
  lookup p files = None -> Os.remove p (Os.write_text p text files) = Ok files.
Proof.
  induction files as [|[p' t'] rest IH]; simpl; intros H.
  - now rewrite String.eqb_refl.
  - destruct (String.eqb p p') eqn:E; [discriminate|].
    simpl. rewrite E. now rewrite (IH H).
Qed.

(** Saving an upload under a fresh path, writing another file and removing
    the upload leaves the other file written and nothing else changed. *)
Lemma remove_after_write (p q text code : string) (files : list (string * string)) :
  lookup p files = None -> p <> q ->
  Os.remove p (Os.write_text q code (Os.write_text p text files))
  = Ok (Os.write_text q code files).
Proof.
  intros Hfresh Hpq.
  assert (Hqp : String.eqb q p = false) by (apply String.eqb_neq; congruence).
  assert (Hpq' : String.eqb p q = false) by now apply String.eqb_neq.
  induction files as [|[p' t'] rest IH]; simpl in *.
  - rewrite Hqp. simpl. now rewrite String.eqb_refl.
  - destruct (String.eqb p p') eqn:E; [discriminate|].
    simpl. destruct (String.eqb q p') eqn:E'; simpl; rewrite E.
    + now rewrite (remove_written p text rest Hfresh).
    + now rewrite (IH Hfresh).
Qed.

Lemma remove_present (p : string) (files : list (string * string)) :
  lookup p files <> None -> exists files', Os.remove p files = Ok files'.
Proof.
  induction files as [|[p' t'] rest IH]; simpl; intros H; [contradiction|].
  destruct (String.eqb p p'); [now eexists|].
  destruct (IH H) as (files' & ->). now eexists.
Qed.

Lemma lookup_written (p q text : string) (files : list (string * string)) :
  lookup p files <> None -> lookup p (Os.write_text q text files) <> None.
Proof.
  intros H. destruct (String.eqb_spec p q) as [->|Hne].
  - rewrite lookup_write_text_same. discriminate.
  - now rewrite lookup_write_text_other.
Qed.

(** *** What a rendered record provides *)

Lemma rendered_title_and_endpoints (api_info : pyval) (prompt : string) :
  create_test_generation_prompt api_info = Ok prompt ->
  exists title endpoints n,
    getitem api_info "title" = Ok (VStr title)
    /\ getitem api_info "endpoints" = Ok endpoints
    /\ len endpoints = Ok n.
Proof.
  intros H. unfold create_test_generation_prompt in H.
  invert_bind H as Hendpoints.
  invert_bind H as Hiter.
  do 4 invert_bind H.
  invert_bind H as Htitle.
  do 3 invert_bind H.
  invert_bind H as Hclass.
  match type of Hclass with
  | str_replace ?t _ _ = _ => destruct t; try discriminate
  end.
  match type of Htitle with
  | _ = Ok (VStr ?s) => exists s
  end.
  match type of Hiter with
  | iterate ?e = _ =>
      exists e;
      assert (Hlen : exists n, len e = Ok n)
        by (destruct e; try discriminate; simpl; now eexists)
  end.
  destruct Hlen as (n & Hlen). exists n. auto.
Qed.

Lemma prefix_char (d c : ascii) (s : string) :
  prefix (String d "") (String c s) = if Ascii.eqb d c then true else false.
Proof.
  cbn [prefix]. destruct (ascii_dec d c) as [->|Hne].
  - rewrite Ascii.eqb_refl. now destruct s.
  - apply Ascii.eqb_neq in Hne. now rewrite Hne.
Qed.

Lemma plain_name_no_slash (a b : string) :
  Os.plain_name (a ++ b) = true -> prefix "/" a = false.
Proof.
  unfold Os.plain_name. intros H.
  do 4 (apply andb_prop in H; destruct H as [H _]).
  apply andb_prop in H. destruct H as [_ H].
  apply negb_true_iff in H.
  destruct a as [|c a]; [reflexivity|].
  cbn [append has_char] in H. apply orb_false_elim in H. destruct H as [H _].
  rewrite prefix_char. now rewrite H.
Qed.

Lemma upload_path_in_uploads (secure_filename : string -> string) (uuid name : string) :
  prefix "/" uuid = false ->
  upload_path secure_filename uuid name
  = "uploads/" ++ uuid ++ "_" ++ secure_filename name.
Proof.
  intros H. unfold upload_path, Os.path_join.
  assert (Hp : prefix "/" (uuid ++ "_" ++ secure_filename name) = false).
  { destruct uuid as [|c u]; [reflexivity|].
    cbn [append]. now rewrite prefix_char in *. }
  now rewrite Hp.
Qed.

Lemma test_path_not_upload (x rest : string) :
  Os.path_join GENERATED_TESTS_FOLDER x <> "uploads/" ++ rest.
Proof.
  unfold Os.path_join.
  destruct (prefix "/" x) eqn:E.
  - destruct x as [|c x]; [discriminate|]. rewrite prefix_char in E.
    destruct (Ascii.eqb_spec "/" c) as [<-|]; discriminate.
  - discriminate.
Qed.

Section Generate.

Variable secure_filename : string -> string.
Variable parse_openapi_spec : string -> string -> result pyval.
Variable generate_test_cases : string -> result (option string).

Lemma generate_reaches_generation
  (file : option (string * string)) (uuid : string) (w : world)
  (name content ext prompt title : string) (api_info endpoints : pyval) (n : nat) :
  valid_upload file name content ->
  after_last_dot (secure_filename name) = Some ext ->
  parse_openapi_spec (universal_newlines content) (lower ext) = Ok api_info ->
  create_test_generation_prompt api_info = Ok prompt ->
  getitem api_info "title" = Ok (VStr title) ->
  getitem api_info "endpoints" = Ok endpoints ->
  len endpoints = Ok n ->
  let filepath := upload_path secure_filename uuid name in
  let uploaded := Os.write_text filepath content (fs w) in
  let log := (sent w ++ [prompt])%list in
  generate_tests secure_filename parse_openapi_spec generate_test_cases file uuid w
  = match generate_test_cases prompt with
    | Ok (Some text) =>
        if negb (nonempty text) || negb (nonempty (strip text))
        then (ErrorResponse 500 "Test generation failed or returned empty result.",
              mkWorld uploaded log)
        else
          let stored :=
            Os.write_text (Os.path_join GENERATED_TESTS_FOLDER (test_filename_of title))
              text uploaded in
          match Os.remove filepath stored with
          | Ok files =>
              (GenerateSuccess text (test_filename_of title) (VStr title) n,
               mkWorld files log)
          | Raise e =>
              (FailureResponse "Failed to generate tests: " e, mkWorld stored log)
          end
    | Ok None =>
        (ErrorResponse 500 "Test generation failed or returned empty result.",
         mkWorld uploaded log)
    | Raise e => (FailureResponse "Failed to generate tests: " e, mkWorld uploaded log)
    end.
Proof.
  intros (-> & Hname & Hallowed) Hext Hparse Hrender Htitle Hendpoints Hlen.
  intros filepath uploaded log.
  unfold generate_tests, try_except, generate_tests_body.
  apply String.eqb_neq in Hname. rewrite Hname, Hallowed.
  unfold hbind, lift, get_fs, set_fs, return_, hret, call_granite, log_prompt.
  unfold hbind, lift. cbn [negb fs sent].
  unfold Os.read_text. fold (upload_path secure_filename uuid name). fold filepath.
  rewrite lookup_write_text_same. rewrite Hext, Hparse, Hrender.
  fold uploaded. fold log.
  destruct (generate_test_cases prompt) as [[text|]|e]; try reflexivity.
  destruct (negb (nonempty text) || negb (nonempty (strip text))); [reflexivity|].
  rewrite Htitle. cbn [str_replace fs sent]. fold (test_filename_of title).
  cbv zeta.
  destruct (Os.remove filepath _) as [files|e]; [|reflexivity].
  cbn [fs sent]. now rewrite Hendpoints, Hlen.
Qed.

End Generate.

(* ================================================================= *)
(** ** The generate path *)

Lemma strip_nonempty (text : string) : strip text <> "" -> text <> "".
Proof. intros H ->. now apply H. Qed.

Lemma nonempty_true (s : string) : s <> "" -> nonempty s = true.
Proof.
  intros H. unfold nonempty. apply String.eqb_neq in H. now rewrite H.
Qed.

Section GenerateProperties.

Variable secure_filename : string -> string.
Variable parse_openapi_spec : string -> string -> result pyval.
Variable generate_test_cases : string -> result (option string).

(** X2: an upload that fails the checks is refused with a 400 answer, and
    nothing is saved or sent. *)
Theorem invalid_upload_refused
  (file : option (string * string)) (uuid : string) (w : world) :
  (forall name content, ~ valid_upload file name content) ->
  exists error,
    generate_tests secure_filename parse_openapi_spec generate_test_cases file uuid w
    = (ErrorResponse 400 error, w)
    /\ In error [ "No file uploaded"; "No file selected";
                  "Invalid file type. Please upload JSON, YAML, or YML files." ].
Proof.
  intros Hinvalid.
  unfold generate_tests, try_except, generate_tests_body.
  destruct file as [[name content]|]; [|eexists; split; [reflexivity|simpl; tauto]].
  destruct (String.eqb_spec name "") as [->|Hname];
    [eexists; split; [reflexivity|simpl; tauto]|].
  destruct (allowed_file name) eqn:Hallowed;
    [|eexists; split; [reflexivity|simpl; tauto]].
  exfalso. apply (Hinvalid name content). now repeat split.
Qed.

Lemma generate_stores_and_removes
  (file : option (string * string)) (uuid : string) (w : world)
  (name content ext prompt text title : string) (api_info endpoints : pyval)
  (n : nat) :
  valid_upload file name content ->
  prefix "/" uuid = false ->
  lookup (upload_path secure_filename uuid name) (fs w) = None ->
  after_last_dot (secure_filename name) = Some ext ->
  parse_openapi_spec (universal_newlines content) (lower ext) = Ok api_info ->
  create_test_generation_prompt api_info = Ok prompt ->
  generate_test_cases prompt = Ok (Some text) ->
  strip text <> "" ->
  getitem api_info "title" = Ok (VStr title) ->
  getitem api_info "endpoints" = Ok endpoints ->
  len endpoints = Ok n ->
  generate_tests secure_filename parse_openapi_spec generate_test_cases file uuid w
  = (GenerateSuccess text (test_filename_of title) (VStr title) n,
     mkWorld
       (Os.write_text (Os.path_join GENERATED_TESTS_FOLDER (test_filename_of title))
          text (fs w))
       (sent w ++ [prompt])%list).
Proof.
  intros Hvalid Huuid Hfresh Hext Hparse Hrender Hgen Hstrip Htitle Hendpoints Hlen.
  rewrite (generate_reaches_generation secure_filename parse_openapi_spec
             generate_test_cases file uuid w name content ext prompt title
             api_info endpoints n Hvalid Hext Hparse Hrender Htitle Hendpoints Hlen).
  cbv zeta. rewrite Hgen.
  rewrite (nonempty_true _ Hstrip), (nonempty_true _ (strip_nonempty _ Hstrip)).
  cbn [negb orb].
  rewrite remove_after_write; [reflexivity|exact Hfresh|].
  rewrite (upload_path_in_uploads _ _ _ Huuid).
  intros E. symmetry in E. now apply test_path_not_upload in E.
Qed.

(** X3: a successful generation stores the generated text as it came, under the
    name made from the title, and removes the upload: the file system
    afterwards is the one before with that single file written.  The upload
    is saved under a plain name not in use, and the name made from the
    title is plain. *)
Theorem generate_success
  (file : option (string * string)) (uuid : string) (w : world)
  (name content ext prompt text : string) (api_info : pyval) :
  valid_upload file name content ->
  plain_upload secure_filename uuid name ->
  lookup (upload_path secure_filename uuid name) (fs w) = None ->
  after_last_dot (secure_filename name) = Some ext ->
  parse_openapi_spec (universal_newlines content) (lower ext) = Ok api_info ->
  create_test_generation_prompt api_info = Ok prompt ->
  (forall title, getitem api_info "title" = Ok (VStr title) ->
                 Os.plain_name (test_filename_of title) = true) ->
  generate_test_cases prompt = Ok (Some text) ->
  strip text <> "" ->
  exists title endpoints n,
    getitem api_info "title" = Ok (VStr title)
    /\ getitem api_info "endpoints" = Ok endpoints
    /\ len endpoints = Ok n
    /\ generate_tests secure_filename parse_openapi_spec generate_test_cases
         file uuid w
       = (GenerateSuccess text (test_filename_of title) (VStr title) n,
          mkWorld
            (Os.write_text
               (Os.path_join GENERATED_TESTS_FOLDER (test_filename_of title))
               text (fs w))
            (sent w ++ [prompt])%list).
Proof.
  intros Hvalid Hplain Hfresh Hext Hparse Hrender _ Hgen Hstrip.
  pose proof (plain_name_no_slash _ _ Hplain) as Huuid.
  destruct (rendered_title_and_endpoints _ _ Hrender)
    as (title & endpoints & n & Htitle & Hendpoints & Hlen).
  exists title, endpoints, n. repeat split; try assumption.
  now apply (generate_stores_and_removes file uuid w name content ext prompt text
               title api_info endpoints n).
Qed.

(** X4: when a request fails after its upload has been saved under a plain
    name and before the test file is opened (no extension, parser or
    renderer raising, client raising or answering nothing or a blank text),
    it is not answered as a success and the upload stays: the file system
    is the one before with the upload written. *)
Theorem failed_generation_keeps_upload
  (file : option (string * string)) (uuid : string) (w : world)
  (name content : string) :
  valid_upload file name content ->
  plain_upload secure_filename uuid name ->
  fails_before_storing secure_filename parse_openapi_spec generate_test_cases
    name content ->
  let answer :=
    generate_tests secure_filename parse_openapi_spec generate_test_cases
      file uuid w in
  (forall test_cases filename api_title endpoints_count,
      fst answer <> GenerateSuccess test_cases filename api_title endpoints_count)
  /\ fs (snd answer)
     = Os.write_text (upload_path secure_filename uuid name) content (fs w).
Proof.
  intros Hvalid _ Hfails answer. subst answer.
  unfold fails_before_storing in Hfails.
  destruct (after_last_dot (secure_filename name)) as [ext|] eqn:Hext.
  2:{ destruct Hvalid as (-> & Hname & Hallowed).
      unfold generate_tests, try_except, generate_tests_body.
      apply String.eqb_neq in Hname. rewrite Hname, Hallowed.
      unfold hbind, lift, get_fs, set_fs. cbn [negb fs sent].
      unfold Os.read_text. rewrite lookup_write_text_same. rewrite Hext.
      split; [discriminate|reflexivity]. }
  destruct (parse_openapi_spec (universal_newlines content) (lower ext))
    as [api_info|e] eqn:Hparse.
  2:{ destruct Hvalid as (-> & Hname & Hallowed).
      unfold generate_tests, try_except, generate_tests_body.
      apply String.eqb_neq in Hname. rewrite Hname, Hallowed.
      unfold hbind, lift, get_fs, set_fs. cbn [negb fs sent].
      unfold Os.read_text. rewrite lookup_write_text_same.
      rewrite Hext, Hparse. split; [discriminate|reflexivity]. }
  destruct (create_test_generation_prompt api_info) as [prompt|e] eqn:Hrender.
  2:{ destruct Hvalid as (-> & Hname & Hallowed).
      unfold generate_tests, try_except, generate_tests_body.
      apply String.eqb_neq in Hname. rewrite Hname, Hallowed.
      unfold hbind, lift, get_fs, set_fs. cbn [negb fs sent].
      unfold Os.read_text. rewrite lookup_write_text_same.
      rewrite Hext, Hparse, Hrender. split; [discriminate|reflexivity]. }
  destruct (rendered_title_and_endpoints _ _ Hrender)
    as (title & endpoints & n & Htitle & Hendpoints & Hlen).
  rewrite (generate_reaches_generation secure_filename parse_openapi_spec
             generate_test_cases file uuid w name content ext prompt title
             api_info endpoints n Hvalid Hext Hparse Hrender Htitle Hendpoints Hlen).
  cbv zeta.
  destruct (generate_test_cases prompt) as [[text|]|e];
    try (split; [discriminate|reflexivity]).
  rewrite Hfails. cbn [nonempty String.eqb negb orb]. rewrite orb_true_r.
  split; [discriminate|reflexivity].
Qed.

End GenerateProperties.

Lemma invalid_upload_refused_witness :
  exists error,
    generate_tests keep_name sample_parse (sample_generate None)
      (Some ("notes.txt", "to do")) "11aa" sample_world
    = (ErrorResponse 400 error, sample_world)
    /\ In error [ "No file uploaded"; "No file selected";
                  "Invalid file type. Please upload JSON, YAML, or YML files." ].
Proof.
  apply (invalid_upload_refused keep_name sample_parse (sample_generate None)).
  intros name content (E & _ & Hallowed).
  injection E as <- <-. vm_compute in Hallowed. discriminate.
Defined.

Lemma generate_success_witness :
  exists title endpoints n,
    getitem pet_store "title" = Ok (VStr title)
    /\ getitem pet_store "endpoints" = Ok endpoints
    /\ len endpoints = Ok n
    /\ generate_tests keep_name sample_parse
         (sample_generate (Some "class PetStoreTests {}"))
         petstore_upload "11aa" (mkWorld [] [])
       = (GenerateSuccess "class PetStoreTests {}" (test_filename_of title)
            (VStr title) n,
          mkWorld
            (Os.write_text
               (Os.path_join GENERATED_TESTS_FOLDER (test_filename_of title))
               "class PetStoreTests {}" [])
            [pet_store_prompt]).
Proof.
  apply (generate_success keep_name sample_parse
           (sample_generate (Some "class PetStoreTests {}"))
           petstore_upload "11aa" (mkWorld [] [])
           "petstore.json" "{}" "json" pet_store_prompt
           "class PetStoreTests {}" pet_store);
    try reflexivity.
  - split; [reflexivity|]. split; [discriminate|reflexivity].
  - intros title H. vm_compute in H. injection H as <-. reflexivity.
  - discriminate.
Defined.

Lemma failed_generation_keeps_upload_witness :
  (forall test_cases filename api_title endpoints_count,
      fst (generate_tests keep_name sample_parse (sample_generate (Some ""))
             petstore_upload "22bb" sample_world)
      <> GenerateSuccess test_cases filename api_title endpoints_count)
  /\ fs (snd (generate_tests keep_name sample_parse (sample_generate (Some ""))
                petstore_upload "22bb" sample_world))
     = Os.write_text (upload_path keep_name "22bb" "petstore.json") "{}"
         (fs sample_world).
Proof.
  apply (failed_generation_keeps_upload keep_name sample_parse
           (sample_generate (Some "")) petstore_upload "22bb" sample_world
           "petstore.json" "{}").
  - split; [reflexivity|]. split; [discriminate|reflexivity].
  - reflexivity.
  - reflexivity.
Defined.

(* ================================================================= *)
(** ** The two paths together *)

Lemma prefix_cons_neq (d c : ascii) (p s : string) :
  d <> c -> prefix (String d p) (String c s) = false.
Proof.
  intros H. cbn [prefix]. destruct (ascii_dec d c); [contradiction|reflexivity].
Qed.

Lemma test_path_outside_uploads (x : string) :
  Os.entry_of UPLOAD_FOLDER (Os.path_join GENERATED_TESTS_FOLDER x) = None.
Proof.
  unfold Os.entry_of, Os.path_join.
  destruct (prefix "/" x) eqn:E.
  - destruct x as [|c x]; [discriminate|]. rewrite prefix_char in E.
    destruct (Ascii.eqb_spec "/" c) as [<-|]; [|discriminate].
    change (UPLOAD_FOLDER ++ "/") with "uploads/".
    rewrite (prefix_cons_neq "u" "/" "ploads/" x); [reflexivity|discriminate].
  - change (UPLOAD_FOLDER ++ "/") with "uploads/".
    change (String.eqb GENERATED_TESTS_FOLDER ""
            || Os.ends_with_slash GENERATED_TESTS_FOLDER) with false.
    cbv iota.
    change (GENERATED_TESTS_FOLDER ++ "/" ++ x)
      with (String "g" ("enerated_tests/" ++ x)).
    rewrite (prefix_cons_neq "u" "g" "ploads/"); [reflexivity|discriminate].
Qed.

Lemma listdir_write_outside (dir q text : string) (files : list (string * string)) :
  Os.entry_of dir q = None ->
  Os.listdir dir (Os.write_text q text files) = Os.listdir dir files.
Proof.
  intros Hq. induction files as [|[p t] rest IH]; cbn [Os.write_text Os.listdir].
  - now rewrite Hq.
  - destruct (String.eqb_spec q p) as [->|Hne]; cbn [Os.listdir].
    + reflexivity.
    + now rewrite IH.
Qed.

Section RegenerateProperties.

Variable secure_filename : string -> string.
Variable parse_openapi_spec : string -> string -> result pyval.
Variable generate_test_cases : string -> result (option string).

(** X6: the refinement handler writes only when it answers with a success.
    An answer it returns itself with an error (not through the [except]
    clause) has status 400 or 404 and leaves the world as it was: no prompt
    is sent and no file is touched.  When the generation client produces no
    text, whatever the prompt, the file system stays as it was.  A success
    for a plain file name has changed the file system only by writing the
    returned test code into the named test file. *)
Theorem regenerate_writes_only_on_success (data : pyval) (w : world) :
  let answer := regenerate_tests parse_openapi_spec generate_test_cases data w in
  (forall status error,
      fst answer = ErrorResponse status error ->
      (status = 400%Z \/ status = 404%Z) /\ snd answer = w)
  /\ ((forall prompt,
         generate_test_cases prompt = Ok None
         \/ exists e, generate_test_cases prompt = Raise e) ->
      fs (snd answer) = fs w)
  /\ (forall test_cases filename message improvements api_title,
         fst answer
         = RegenerateSuccess test_cases filename message improvements api_title ->
         Os.plain_name filename = true ->
         fs (snd answer)
         = Os.write_text (Os.path_join GENERATED_TESTS_FOLDER filename)
             test_cases (fs w)).
Proof.
  cbv zeta.
  unfold regenerate_tests, try_except, regenerate_tests_body.
  unfold hbind, lift, get_fs, set_fs, return_, hret, call_granite, log_prompt.
  unfold hbind, lift.
  assert (Herror : forall (status : Z) (message : string),
             (status = 400%Z \/ status = 404%Z) ->
             (forall status' error,
                 ErrorResponse status message = ErrorResponse status' error ->
                 (status' = 400%Z \/ status' = 404%Z) /\ w = w)
             /\ ((forall prompt,
                    generate_test_cases prompt = Ok None
                    \/ exists e, generate_test_cases prompt = Raise e) ->
                 fs w = fs w)
             /\ (forall test_cases filename message' improvements api_title,
                    ErrorResponse status message
                    = RegenerateSuccess test_cases filename message'
                        improvements api_title ->
                    Os.plain_name filename = true ->
                    fs w
                    = Os.write_text (Os.path_join GENERATED_TESTS_FOLDER filename)
                        test_cases (fs w))).
  { intros status message Hstatus. split; [|split].
    - intros status' error H. injection H as <- _. now split.
    - reflexivity.
    - discriminate. }
  assert (Hfailure : forall (e : exn) (w' : world),
             fs w' = fs w ->
             (forall status error,
                 FailureResponse "Failed to regenerate tests: " e
                 = ErrorResponse status error ->
                 (status = 400%Z \/ status = 404%Z) /\ w' = w)
             /\ ((forall prompt,
                    generate_test_cases prompt = Ok None
                    \/ exists e, generate_test_cases prompt = Raise e) ->
                 fs w' = fs w)
             /\ (forall test_cases filename message improvements api_title,
                    FailureResponse "Failed to regenerate tests: " e
                    = RegenerateSuccess test_cases filename message
                        improvements api_title ->
                    Os.plain_name filename = true ->
                    fs w'
                    = Os.write_text (Os.path_join GENERATED_TESTS_FOLDER filename)
                        test_cases (fs w))).
  { intros e w' Hfs. split; [|split].
    - discriminate.
    - now intros _.
    - discriminate. }
  destruct (get data "filename" VNone) as [filename|e];
    [|now apply Hfailure].
  destruct (s <- get data "suggestions" (VStr "");; str_strip s)%result
    as [suggestions|e]; [|now apply Hfailure].
  destruct (negb (truthy filename) || negb (nonempty suggestions));
    [apply Herror; now left|].
  destruct filename; try (now apply Hfailure).
  cbn [fs sent fst snd].
  destruct (negb (Os.exists_ _ _)); [apply Herror; now right|].
  destruct (Os.read_text _ _) as [old|e]; [|now apply Hfailure].
  destruct (first_match _ _) as [m|]; [|apply Herror; now right].
  destruct (negb (nonempty m)); [apply Herror; now right|].
  destruct (Os.read_text _ _) as [content|e]; [|now apply Hfailure].
  destruct (after_last_dot m) as [ext|]; [|now apply Hfailure].
  destruct (parse_openapi_spec _ _) as [api|e]; [|now apply Hfailure].
  destruct (create_test_generation_prompt api) as [orig|e];
    [|now apply Hfailure].
  destruct (generate_test_cases _) as [[t|]|e] eqn:Hclient;
    try (now apply Hfailure).
  cbn [extract_from_response fst snd fs sent].
  split; [|split].
  - discriminate.
  - intros Hnever.
    destruct (Hnever (final_prompt orig old suggestions)) as [H|[e H]];
      rewrite Hclient in H; discriminate H.
  - intros test_cases filename message improvements api_title H _.
    now injection H as <- <- _ _ _.
Qed.

(** X5: each request, on either path, sends at most one prompt to the
    generation client: there is no second attempt. *)
Theorem one_prompt_per_request :
  (forall file uuid w,
      let answer :=
        generate_tests secure_filename parse_openapi_spec generate_test_cases
          file uuid w in
      sent (snd answer) = sent w
      \/ exists prompt, sent (snd answer) = (sent w ++ [prompt])%list)
  /\ (forall data w,
         let answer :=
           regenerate_tests parse_openapi_spec generate_test_cases data w in
         sent (snd answer) = sent w
         \/ exists prompt, sent (snd answer) = (sent w ++ [prompt])%list).
Proof.
  split.
  - intros file uuid w. cbv zeta.
    unfold generate_tests, try_except, generate_tests_body.
    destruct file as [[name content]|]; [|now left].
    destruct (String.eqb name ""); [now left|].
    destruct (negb (allowed_file name)); [now left|].
    unfold hbind, lift, get_fs, set_fs, return_, hret, call_granite, log_prompt.
    unfold hbind, lift. cbn [fs sent].
    destruct (Os.read_text _ _) as [file_content|e]; [|now left].
    destruct (after_last_dot _) as [ext|]; [|now left].
    destruct (parse_openapi_spec _ _) as [api_info|e]; [|now left].
    destruct (create_test_generation_prompt api_info) as [prompt|e]; [|now left].
    right. exists prompt.
    destruct (generate_test_cases prompt) as [[text|]|e]; try reflexivity.
    destruct (negb (nonempty text) || negb (nonempty (strip text))); [reflexivity|].
    destruct (getitem api_info "title") as [title|e]; [|reflexivity].
    destruct (str_replace title " " "_") as [tname|e]; [|reflexivity].
    cbn [fs sent].
    destruct (Os.remove _ _) as [files|e]; [|reflexivity].
    cbn [fs sent].
    destruct (getitem api_info "endpoints") as [endpoints|e]; [|reflexivity].
    destruct (len endpoints); reflexivity.
  - intros data w. cbv zeta.
    unfold regenerate_tests, try_except, regenerate_tests_body.
    unfold hbind, lift, get_fs, set_fs, return_, hret, call_granite, log_prompt.
    unfold hbind, lift.
    destruct (get data "filename" VNone) as [filename|e]; [|now left].
    destruct (s <- get data "suggestions" (VStr "");; str_strip s)%result
      as [suggestions|e]; [|now left].
    destruct (negb (truthy filename) || negb (nonempty suggestions)); [now left|].
    destruct filename; try (now left).
    cbn [fs sent fst snd].
    destruct (negb (Os.exists_ _ _)); [now left|].
    destruct (Os.read_text _ _) as [old|e]; [|now left].
    destruct (first_match _ _) as [m|]; [|now left].
    destruct (negb (nonempty m)); [now left|].
    destruct (Os.read_text _ _) as [content|e]; [|now left].
    destruct (after_last_dot m) as [ext|]; [|now left].
    destruct (parse_openapi_spec _ _) as [api|e]; [|now left].
    destruct (create_test_generation_prompt api) as [orig|e]; [|now left].
    right. eexists.
    destruct (generate_test_cases _) as [[t|]|e]; reflexivity.
Qed.

(** X7: a refinement that follows a successful generation is refused for want
    of the original upload, which the generation has removed, unless some
    other upload already matched the title.  The upload is stored under a
    plain file name, and the title gives a plain name to the test file. *)
Theorem regenerate_after_generate_refused
  (file : option (string * string)) (uuid : string) (w : world)
  (name content ext prompt text title : string) (api_info : pyval)
  (parse' : string -> string -> result pyval)
  (generate' : string -> result (option string))
  (data : list (string * pyval)) (suggestions : string) :
  valid_upload file name content ->
  plain_upload secure_filename uuid name ->
  Os.plain_name (test_filename_of title) = true ->
  lookup (upload_path secure_filename uuid name) (fs w) = None ->
  after_last_dot (secure_filename name) = Some ext ->
  parse_openapi_spec (universal_newlines content) (lower ext) = Ok api_info ->
  create_test_generation_prompt api_info = Ok prompt ->
  generate_test_cases prompt = Ok (Some text) ->
  strip text <> "" ->
  getitem api_info "title" = Ok (VStr title) ->
  matched_upload (test_filename_of title) w = None ->
  filename_given data (test_filename_of title) ->
  feedback_given data suggestions ->
  let generated :=
    generate_tests secure_filename parse_openapi_spec generate_test_cases
      file uuid w in
  (exists n, fst generated
             = GenerateSuccess text (test_filename_of title) (VStr title) n)
  /\ regenerate_tests parse' generate' (VDict data) (snd generated)
     = (ErrorResponse 404 "Original API file not found for regeneration",
        snd generated).
Proof.
  intros Hvalid Hplain _ Hfresh Hext Hparse Hrender Hgen Hstrip Htitle Hnone
    (Hfn & Hfn') (raw & Hraw & Hrawstrip & Hfb) generated.
  pose proof (plain_name_no_slash _ _ Hplain) as Huuid.
  destruct (rendered_title_and_endpoints _ _ Hrender)
    as (title' & endpoints & n & Htitle' & Hendpoints & Hlen).
  rewrite Htitle in Htitle'. injection Htitle' as <-.
  subst generated.
  rewrite (generate_stores_and_removes secure_filename parse_openapi_spec
             generate_test_cases file uuid w name content ext prompt text title
             api_info endpoints n Hvalid Huuid Hfresh Hext Hparse Hrender Hgen
             Hstrip Htitle Hendpoints Hlen).
  cbn [fst snd].
  split; [now exists n|].
  unfold regenerate_tests, try_except, regenerate_tests_body.
  unfold hbind, lift, get_fs, return_, nonempty. cbn [get fs sent rbind].
  apply String.eqb_neq in Hfn', Hfb.
  rewrite Hfn, Hraw. cbn [rbind str_strip truthy]. rewrite Hrawstrip, Hfn', Hfb.
  cbn [negb orb].
  cbn [fs sent].
  unfold Os.exists_, Os.read_text. rewrite lookup_write_text_same. cbn [negb].
  unfold matched_upload, api_title_of in Hnone.
  rewrite listdir_write_outside by apply test_path_outside_uploads.
  now rewrite Hnone.
Qed.

End RegenerateProperties.

Lemma regenerate_writes_only_on_success_witness :
  fs (snd (regenerate_tests sample_parse (sample_generate (Some "class T {}"))
             (VDict refine_request) sample_world))
  = Os.write_text (Os.path_join GENERATED_TESTS_FOLDER "Pet_Store_Tests.java")
      "class T {}" (fs sample_world).
Proof.
  apply (proj2 (proj2 (regenerate_writes_only_on_success sample_parse
                         (sample_generate (Some "class T {}"))
                         (VDict refine_request) sample_world))
           "class T {}" "Pet_Store_Tests.java"
           "Test cases regenerated successfully" "add negative tests"
           "Pet Store");
    reflexivity.
Defined.

Lemma regenerate_after_generate_refused_witness :
  (exists n,
      fst (generate_tests keep_name sample_parse
             (sample_generate (Some "class PetStoreTests {}"))
             petstore_upload "11aa" (mkWorld [] []))
      = GenerateSuccess "class PetStoreTests {}" (test_filename_of "Pet Store")
          (VStr "Pet Store") n)
  /\ regenerate_tests sample_parse (sample_generate (Some "class T {}"))
       (VDict refine_request)
       (snd (generate_tests keep_name sample_parse
               (sample_generate (Some "class PetStoreTests {}"))
               petstore_upload "11aa" (mkWorld [] [])))
     = (ErrorResponse 404 "Original API file not found for regeneration",
        snd (generate_tests keep_name sample_parse
               (sample_generate (Some "class PetStoreTests {}"))
               petstore_upload "11aa" (mkWorld [] []))).
Proof.
  apply (regenerate_after_generate_refused keep_name sample_parse
           (sample_generate (Some "class PetStoreTests {}"))
           petstore_upload "11aa" (mkWorld [] [])
           "petstore.json" "{}" "json" pet_store_prompt
           "class PetStoreTests {}" "Pet Store" pet_store
           sample_parse (sample_generate (Some "class T {}"))
           refine_request "add negative tests");
    try reflexivity.
  - split; [reflexivity|]. split; [discriminate|reflexivity].
  - discriminate.
  - split; [reflexivity|discriminate].
  - exists " add negative tests ".
    split; [reflexivity|split; [reflexivity|discriminate]].
Defined.

(* ================================================================= *)
(** ** File names, endpoints and parameter names *)

(** *** Characters of a text *)

Lemma has_char_append (c : ascii) (a b : string) :
  has_char c (a ++ b) = has_char c a || has_char c b.
Proof.
  induction a as [|d a IH]; [reflexivity|]. simpl. rewrite IH. apply orb_assoc.
Qed.

Lemma contains_char (c : ascii) (s : string) :
  contains (String c "") s = has_char c s.
Proof.
  unfold contains, find.
  induction s as [|d s IH]; [reflexivity|].
  cbn [index has_char]. rewrite prefix_char.
  destruct (Ascii.eqb c d); [reflexivity|].
  cbn [orb]. rewrite <- IH. now destruct (index 0 (String c "") s).
Qed.

Lemma after_last_dot_none (s : string) :
  after_last_dot s = None <-> has_char "." s = false.
Proof.
  induction s as [|c s IH]; [now split|].
  cbn [after_last_dot has_char].
  destruct (after_last_dot s) as [e|].
  - split; [discriminate|]. intros H.
    apply orb_false_elim in H. destruct H as [_ H].
    apply IH in H. discriminate.
  - rewrite (Ascii.eqb_sym c ".").
    destruct (Ascii.eqb "." c); cbn [orb].
    + split; discriminate.
    + split; intros _; [now apply IH|reflexivity].
Qed.

Lemma after_last_dot_spec (s ext : string) :
  after_last_dot s = Some ext
  <-> exists stem, s = stem ++ "." ++ ext /\ has_char "." ext = false.
Proof.
  split.
  - revert ext. induction s as [|c s IH]; intros ext H; [discriminate|].
    cbn [after_last_dot] in H.
    destruct (after_last_dot s) as [e|] eqn:E.
    + injection H as <-. destruct (IH e eq_refl) as (stem & -> & Hno).
      now exists (String c stem).
    + destruct (Ascii.eqb_spec c ".") as [->|]; [|discriminate].
      injection H as <-. exists "". split; [reflexivity|].
      now apply after_last_dot_none.
  - intros (stem & -> & Hno).
    induction stem as [|c stem IH].
    + cbn [append after_last_dot].
      apply after_last_dot_none in Hno. now rewrite Hno.
    + cbn [append after_last_dot]. cbn [append] in IH. now rewrite IH.
Qed.

(** X1: [allowed_file] accepts exactly the names whose text after the last dot
    is, up to case, one of the allowed extensions. *)
Theorem allowed_file_iff (filename : string) :
  allowed_file filename = true
  <-> exists stem ext,
      filename = stem ++ "." ++ ext
      /\ has_char "." ext = false
      /\ In (lower ext) ALLOWED_EXTENSIONS.
Proof.
  unfold allowed_file. split.
  - intros H. apply andb_prop in H. destruct H as [_ H].
    destruct (after_last_dot filename) as [ext|] eqn:E; [|discriminate].
    apply after_last_dot_spec in E. destruct E as (stem & -> & Hno).
    exists stem, ext. repeat split; [exact Hno|].
    apply existsb_exists in H. destruct H as (x & Hin & Hx).
    apply String.eqb_eq in Hx. now subst.
  - intros (stem & ext & -> & Hno & Hin).
    apply andb_true_intro. split.
    + rewrite contains_char, has_char_append. cbn [append has_char].
      rewrite Ascii.eqb_refl. cbn [orb]. apply orb_true_r.
    + assert (E : after_last_dot (stem ++ "." ++ ext) = Some ext)
        by (apply after_last_dot_spec; now exists stem).
      rewrite E. apply existsb_exists. exists (lower ext).
      split; [exact Hin|apply String.eqb_refl].
Qed.

Lemma allowed_file_iff_witness :
  allowed_file "Pet.Store.YAML" = true.
Proof.
  apply (proj2 (allowed_file_iff "Pet.Store.YAML")).
  exists "Pet.Store", "YAML". repeat split. simpl. tauto.
Defined.

(** *** The endpoints block *)

(** X10: the endpoints block is the summaries of the endpoints, one after the
    other in the order of the list. *)
Theorem endpoints_in_order (endpoints : list pyval) (acc summary : string) :
  endpoints_loop endpoints acc = Ok summary
  <-> exists blocks,
      Forall2 (fun e block => endpoint_summary e = Ok block) endpoints blocks
      /\ summary = acc ++ join "" blocks.
Proof.
  revert acc summary.
  assert (Hjoin : forall b bs, join "" (b :: bs) = b ++ join "" bs).
  { intros b [|b' bs]; [now rewrite append_empty_r|reflexivity]. }
  induction endpoints as [|e es IH]; intros acc summary; cbn [endpoints_loop].
  - split.
    + intros [= <-]. exists []. split; [constructor|now rewrite append_empty_r].
    + intros (blocks & HF & ->). inversion HF; subst.
      now rewrite append_empty_r.
  - split.
    + intros H. invert_bind H as He.
      apply IH in H. destruct H as (blocks & HF & ->).
      eexists (_ :: blocks). split; [constructor; eassumption|].
      now rewrite Hjoin, append_assoc.
    + intros (blocks & HF & ->). inversion HF as [|? block ? bs He HF']; subst.
      rewrite He. cbn [rbind]. apply IH. exists bs.
      split; [exact HF'|]. now rewrite Hjoin, append_assoc.
Qed.

(** *** Names that are not strings *)





Lemma endpoints_in_order_witness :
  exists blocks,
    Forall2 (fun e block => endpoint_summary e = Ok block) two_endpoints blocks
    /\ match endpoints_loop two_endpoints "" with
       | Ok summary => summary
       | Raise _ => ""
       end = "" ++ join "" blocks.
Proof.
  apply (proj1 (endpoints_in_order two_endpoints "" _)).
  reflexivity.
Defined.

(* ================================================================= *)
(** ** From a file name back to the title *)

(** *** Replacing one character *)

Lemma replace_char_cons (a c : ascii) (new s : string) :
  replace (String c s) (String a "") new
  = (if Ascii.eqb a c then new else String c "") ++ replace s (String a "") new.
Proof.
  unfold replace. cbn [replace_from]. rewrite prefix_char.
  now destruct (Ascii.eqb a c).
Qed.

Lemma replace_char_free (a : ascii) (new s : string) :
  has_char a new = false -> has_char a (replace s (String a "") new) = false.
Proof.
  intros Hnew. induction s as [|c s IH]; [reflexivity|].
  rewrite replace_char_cons, has_char_append, IH.
  destruct (Ascii.eqb a c) eqn:E; [now rewrite Hnew|].
  cbn [has_char]. now rewrite E.
Qed.

Lemma replace_char_absent (a : ascii) (new s : string) :
  has_char a s = false -> replace s (String a "") new = s.
Proof.
  induction s as [|c s IH]; [reflexivity|]. cbn [has_char]. intros H.
  apply orb_false_elim in H. destruct H as [Hc Hs].
  rewrite replace_char_cons, Hc, (IH Hs). reflexivity.
Qed.

Lemma replace_space_underscore (s : string) :
  replace (replace s " " "_") "_" " " = replace s "_" " ".
Proof.
  induction s as [|c s IH]; [reflexivity|].
  rewrite (replace_char_cons " " c), (replace_char_cons "_" c).
  destruct (Ascii.eqb_spec " " c) as [<-|Hspace].
  - cbn [append]. rewrite replace_char_cons. cbn. now rewrite IH.
  - destruct (Ascii.eqb_spec "_" c) as [<-|Hunder].
    + cbn [append]. rewrite replace_char_cons. cbn. now rewrite IH.
    + cbn [append]. rewrite replace_char_cons.
      apply Ascii.eqb_neq in Hunder. rewrite Hunder. cbn [append].
      now rewrite IH.
Qed.

(** *** Removing the suffix of a file name *)

Lemma replace_from_skip_all (old new : string) :
  forall s k, String.length s <= k -> replace_from old new k s = "".
Proof.
  induction s as [|c s IH]; intros k Hk; [reflexivity|].
  destruct k as [|k]; [simpl in Hk; lia|].
  cbn [replace_from]. apply IH. simpl in Hk. lia.
Qed.

Lemma prefix_refl (s : string) : prefix s s = true.
Proof.
  induction s as [|c s IH]; [reflexivity|].
  cbn [prefix]. destruct (ascii_dec c c); [exact IH|contradiction].
Qed.

Lemma replace_removes_suffix (pat t : string) :
  pat <> "" ->
  (forall k, k < String.length t -> ~ occurs_at pat (t ++ pat) k) ->
  replace (t ++ pat) pat "" = t.
Proof.
  intros Hpat. unfold replace.
  induction t as [|c t IH]; intros Hno.
  - cbn [append]. destruct pat as [|d p]; [contradiction|].
    cbn [replace_from]. rewrite prefix_refl. cbn [append].
    apply replace_from_skip_all. simpl. lia.
  - cbn [append replace_from].
    assert (Hp : prefix pat (String c (t ++ pat)) = false).
    { destruct (prefix pat (String c (t ++ pat))) eqn:E; [|reflexivity].
      apply prefix_correct in E. exfalso.
      apply (Hno 0); [simpl; lia|exact E]. }
    rewrite Hp. f_equal. apply IH.
    intros k Hk H. apply (Hno (S k)); [simpl; lia|exact H].
Qed.

(** X12: the title a refinement recovers from the name of a stored file is the
    title the file was named after, with its underscores read as spaces. *)
Theorem title_round_trip (title : string) :
  (forall k, k < String.length (replace title " " "_") ->
             ~ occurs_at "_Tests.java" (test_filename_of title) k) ->
  api_title_of (test_filename_of title) = replace title "_" " "
  /\ (has_char "_" title = false -> api_title_of (test_filename_of title) = title).
Proof.
  intros Hno.
  assert (E : api_title_of (test_filename_of title) = replace title "_" " ").
  { unfold api_title_of, test_filename_of.
    rewrite replace_removes_suffix; [apply replace_space_underscore|discriminate|exact Hno]. }
  split; [exact E|].
  intros H. rewrite E. now apply replace_char_absent.
Qed.

Lemma title_round_trip_witness :
  api_title_of (test_filename_of "Pet Store") = replace "Pet Store" "_" " "
  /\ (has_char "_" "Pet Store" = false
      -> api_title_of (test_filename_of "Pet Store") = "Pet Store").
Proof.
  apply (title_round_trip "Pet Store").
  intros k Hk. unfold occurs_at.
  do 9 (destruct k as [|k]; [vm_compute; discriminate|]).
  vm_compute in Hk. lia.
Defined.

(* ================================================================= *)
(** ** Stored names and the health check *)

Section Stored.

Variable secure_filename : string -> string.
Variable parse_openapi_spec : string -> string -> result pyval.
Variable generate_test_cases : string -> result (option string).

(** X13: the name a generation is stored under holds no space and ends with
    [_Tests.java], and the text stored is not blank. *)
Theorem stored_file_name
  (file : option (string * string)) (uuid : string) (w : world)
  (test_cases filename : string) (api_title : pyval) (endpoints_count : nat) :
  fst (generate_tests secure_filename parse_openapi_spec generate_test_cases
         file uuid w)
  = GenerateSuccess test_cases filename api_title endpoints_count ->
  has_char " " filename = false
  /\ (exists title, api_title = VStr title /\ filename = test_filename_of title)
  /\ strip test_cases <> "".
Proof.
  unfold generate_tests, try_except, generate_tests_body.
  destruct file as [[name content]|]; [|discriminate].
  destruct (String.eqb name ""); [discriminate|].
  destruct (negb (allowed_file name)); [discriminate|].
  unfold hbind, lift, get_fs, set_fs, return_, hret, call_granite, log_prompt.
  unfold hbind, lift. cbn [fs sent].
  destruct (Os.read_text _ _) as [file_content|e]; [|discriminate].
  destruct (after_last_dot _) as [ext|]; [|discriminate].
  destruct (parse_openapi_spec _ _) as [api_info|e]; [|discriminate].
  destruct (create_test_generation_prompt api_info) as [prompt|e]; [|discriminate].
  destruct (generate_test_cases prompt) as [[text|]|e]; try discriminate.
  destruct (negb (nonempty text) || negb (nonempty (strip text))) eqn:Hblank;
    [discriminate|].
  destruct (getitem api_info "title") as [title|e]; [|discriminate].
  destruct title; try discriminate.
  cbn [str_replace fs sent].
  destruct (Os.remove _ _) as [files|e]; [|discriminate].
  cbn [fs sent].
  destruct (getitem api_info "endpoints") as [endpoints|e]; [|discriminate].
  destruct (len endpoints); [|discriminate].
  cbn [fst]. intros [= <- <- <- <-].
  split; [|split].
  - rewrite has_char_append, replace_char_free; reflexivity.
  - now exists s.
  - apply orb_false_elim in Hblank. destruct Hblank as [_ Hblank].
    unfold nonempty in Hblank. apply negb_false_iff, negb_true_iff in Hblank.
    now apply String.eqb_neq.
Qed.

(** X14: a client that only ever answers blank text passes the health check,
    with an empty [test_response], while no generation can succeed. *)
Theorem health_check_accepts_blank_answers
  (model_id project_id : pyval) (text : string) (w : world) :
  strip text = "" ->
  (forall prompt, generate_test_cases prompt = Ok (Some text)) ->
  health_check generate_test_cases model_id project_id w
  = (Healthy model_id project_id "",
     mkWorld (fs w) (sent w ++ [health_prompt])%list)
  /\ forall file uuid w' test_cases filename api_title endpoints_count,
      fst (generate_tests secure_filename parse_openapi_spec generate_test_cases
             file uuid w')
      <> GenerateSuccess test_cases filename api_title endpoints_count.
Proof.
  intros Hblank Hgen. split.
  - unfold health_check. now rewrite Hgen, Hblank.
  - intros file uuid w'.
    apply (generate_refuses_blank_generation secure_filename parse_openapi_spec
             generate_test_cases file uuid w').
    intros prompt. right. exists text. now split.
Qed.

End Stored.

Lemma stored_file_name_witness :
  has_char " " "Pet_Store_Tests.java" = false
  /\ (exists title, VStr "Pet Store" = VStr title
                    /\ "Pet_Store_Tests.java" = test_filename_of title)
  /\ strip "class PetStoreTests {}" <> "".
Proof.
  apply (stored_file_name keep_name sample_parse
           (sample_generate (Some "class PetStoreTests {}"))
           petstore_upload "11aa" (mkWorld [] [])
           "class PetStoreTests {}" "Pet_Store_Tests.java" (VStr "Pet Store") 1).
  reflexivity.
Defined.

Lemma health_check_accepts_blank_answers_witness :
  health_check (sample_generate (Some "  ")) (VStr "granite") (VStr "demo")
    sample_world
  = (Healthy (VStr "granite") (VStr "demo") "",
     mkWorld (fs sample_world) (sent sample_world ++ [health_prompt])%list)
  /\ forall file uuid w' test_cases filename api_title endpoints_count,
      fst (generate_tests keep_name sample_parse (sample_generate (Some "  "))
             file uuid w')
      <> GenerateSuccess test_cases filename api_title endpoints_count.
Proof.
  apply (health_check_accepts_blank_answers keep_name sample_parse
           (sample_generate (Some "  ")) (VStr "granite") (VStr "demo") "  "
           sample_world).
  - reflexivity.
  - reflexivity.
Defined.

